(** * MoarVM telemetry recorder (src/profiler/telemeh.c)

    A shallow embedding of the ring buffer of telemetry events, of the
    producer functions that fill it and of the serializer that drains it.

    - C integers are [Z] with the wrap-around of their width written out:
      [unsigned int] is taken modulo [2^32], [unsigned long long] modulo
      [2^64]; [intptr_t] is a signed 64-bit value.
    - [double] is the kernel's binary64 [float].
    - A [const char *] description is the string it points to (the caller
      keeps it alive, the recorder never copies it).
    - The file-scope statics are the fields of [Statics]; what the process
      gets from outside (cycle counter, monotonic clock) and what it does
      to the outside (sleeping, printing, starting a thread) is the [Env]:
      two feeds of readings and a trace of events.
    - A function of the C file is a computation in the monad [M]: state
      passing over [Machine], with [None] where this model gives the code
      no meaning (indexing outside [recordBuffer], reading a union member
      other than the one stored last, a loop out of fuel).
    - One call runs at a time, except in [Module Conc], which interleaves
      several producers inside [newRecord] step by step.
    - [backgroundSerialization] is the thread that calls
      [serializeTelemetryBuffer] once a second until [finishTelemetry]
      stops it.  In a [run] its passes are calls of
      [serializeTelemetryBuffer] placed anywhere between the calls of the
      producers; [Module Background] has the thread itself, step by step,
      with [finishTelemetry]. *)

From Stdlib Require Import ZArith Lia List String Ascii Floats.
From stdpp Require Import base option list list_numbers.
From Equations Require Import Equations.

Local Open Scope Z_scope.

(** ** Machine integers *)

Definition to_uint (z : Z) : Z := z mod 2 ^ 32.
Definition to_ull (z : Z) : Z := z mod 2 ^ 64.
(** The value a 32-bit (64-bit) pattern has when read as [int] ([long]). *)
Definition to_int (z : Z) : Z := (z + 2 ^ 31) mod 2 ^ 32 - 2 ^ 31.
Definition to_long (z : Z) : Z := (z + 2 ^ 63) mod 2 ^ 64 - 2 ^ 63.
(** [(double)z] for an integer [z]: round to nearest, ties to even. *)
Definition double_of_Z (z : Z) : float :=
  SF2Prim (binary_normalize 53 1024 z 0 false).

(** ** Records of the ring buffer *)

Inductive RecordType :=
| Calibration
| Epoch
| TimeStamp
| IntervalStart
| IntervalEnd
| IntervalAnnotation.

Record CalibrationRecord := { calibration_ticksPerSecond : float }.
Record EpochRecord := { epoch_time : Z }.
Record TimeStampRecord :=
  { timeStamp_time : Z; timeStamp_description : string }.
Record IntervalRecord :=
  { interval_time : Z; interval_intervalID : Z; interval_description : string }.
(** [struct IntervalAnnotation]; the name alone is the enumerator. *)
Record struct_IntervalAnnotation :=
  { annotation_intervalID : Z; annotation_description : string }.

(** The anonymous union of [struct TelemetryRecord]: the member stored
    last.  Every producer stores all the fields of the one member it uses,
    so its stores to that member are one assignment here. *)
Inductive payload :=
| calibration (c : CalibrationRecord)
| epoch (e : EpochRecord)
| timeStamp (t : TimeStampRecord)
| interval (i : IntervalRecord)
| annotation (a : struct_IntervalAnnotation).

Record TelemetryRecord := {
  recordType : RecordType;
  threadID : Z;
  u : payload
}.

Definition RECORD_BUFFER_SIZE : Z := 10000.

(** A slot of the zero-initialised static array: enumerator 0, thread 0,
    and a union whose bytes are all zero (the double [0.0]). *)
Definition zero_record : TelemetryRecord :=
  {| recordType := Calibration; threadID := 0;
     u := calibration {| calibration_ticksPerSecond := 0%float |} |}.

(** ** The process state *)

Record Statics := {
  ticksPerSecond : float;
  recordBuffer : list TelemetryRecord;
  recordBufferIndex : Z;
  lastSerializedIndex : Z;
  beginningEpoch : Z;
  telemetry_active : Z;
  intervalIDCounter : Z
}.

Record timespec := { tv_sec : Z; tv_nsec : Z }.

Definition FILE := nat.

(** One conversion argument of a [fprintf] call, by its C type. *)
Inductive printf_arg :=
| arg_intptr (v : Z)
| arg_ull (v : Z)
| arg_uint (v : Z)
| arg_double (f : float)
| arg_str (s : string).

Inductive Event :=
| EClockGettime (t : timespec)
| ERdtscp (v : Z)
| ESleep (seconds : Z)
| EFprintf (stream : FILE) (format : string) (args : list printf_arg)
| EPthreadCreate (arg : FILE).

(** The [n]-th [__rdtscp] returns [tsc_feed n], the [n]-th [clock_gettime]
    fills in [clock_feed n]; [trace] is what happened so far, oldest first. *)
Record Env := {
  tsc_feed : nat -> Z;
  tsc_reads : nat;
  clock_feed : nat -> timespec;
  clock_reads : nat;
  trace : list Event
}.

Record Machine := { statics : Statics; env : Env }.

Definition boot_statics : Statics :=
  {| ticksPerSecond := 0%float;
     recordBuffer := replicate (Z.to_nat RECORD_BUFFER_SIZE) zero_record;
     recordBufferIndex := 0;
     lastSerializedIndex := 0;
     beginningEpoch := 0;
     telemetry_active := 0;
     intervalIDCounter := 0 |}.

Definition boot_env (tsc : nat -> Z) (clock : nat -> timespec) : Env :=
  {| tsc_feed := tsc; tsc_reads := 0%nat;
     clock_feed := clock; clock_reads := 0%nat; trace := [] |}.

(** The process right after loading: statics as their initialisers say. *)
Definition boot (tsc : nat -> Z) (clock : nat -> timespec) : Machine :=
  {| statics := boot_statics; env := boot_env tsc clock |}.

(** ** The monad of the C functions *)

Definition M (A : Type) : Type := Machine -> option (A * Machine).

Definition ret {A} (a : A) : M A := fun m => Some (a, m).
Definition bind {A B} (c : M A) (k : A -> M B) : M B :=
  fun m => match c m with
           | Some (a, m') => k a m'
           | None => None
           end.
Definition undefined {A} : M A := fun _ => None.

Notation "'let*' x ':=' c 'in' k" := (bind c (fun x => k))
  (at level 10, x name, c at level 200, k at level 200).
Notation "'run*' c 'in' k" := (bind c (fun _ => k))
  (at level 10, c at level 200, k at level 200).

Definition load {A} (f : Statics -> A) : M A :=
  fun m => Some (f (statics m), m).
Definition modify (f : Statics -> Statics) : M unit :=
  fun m => Some (tt, {| statics := f (statics m); env := env m |}).
(** The three things that happen to the environment. *)
Definition env_emit (e : Event) (w : Env) : Env :=
  {| tsc_feed := tsc_feed w; tsc_reads := tsc_reads w;
     clock_feed := clock_feed w; clock_reads := clock_reads w;
     trace := trace w ++ [e] |}.
Definition tsc_now (w : Env) : Z := tsc_feed w (tsc_reads w).
Definition clock_now (w : Env) : timespec := clock_feed w (clock_reads w).
Definition env_tsc (v : Z) (w : Env) : Env :=
  {| tsc_feed := tsc_feed w; tsc_reads := S (tsc_reads w);
     clock_feed := clock_feed w; clock_reads := clock_reads w;
     trace := trace w ++ [ERdtscp v] |}.
Definition env_clock (w : Env) : Env :=
  {| tsc_feed := tsc_feed w; tsc_reads := tsc_reads w;
     clock_feed := clock_feed w; clock_reads := S (clock_reads w);
     trace := trace w ++ [EClockGettime (clock_now w)] |}.

Definition emit (e : Event) : M unit :=
  fun m => Some (tt, {| statics := statics m; env := env_emit e (env m) |}).

Definition set_ticksPerSecond (v : float) (s : Statics) : Statics :=
  {| ticksPerSecond := v; recordBuffer := recordBuffer s;
     recordBufferIndex := recordBufferIndex s;
     lastSerializedIndex := lastSerializedIndex s;
     beginningEpoch := beginningEpoch s;
     telemetry_active := telemetry_active s;
     intervalIDCounter := intervalIDCounter s |}.
Definition set_recordBuffer (v : list TelemetryRecord) (s : Statics) : Statics :=
  {| ticksPerSecond := ticksPerSecond s; recordBuffer := v;
     recordBufferIndex := recordBufferIndex s;
     lastSerializedIndex := lastSerializedIndex s;
     beginningEpoch := beginningEpoch s;
     telemetry_active := telemetry_active s;
     intervalIDCounter := intervalIDCounter s |}.
Definition set_recordBufferIndex (v : Z) (s : Statics) : Statics :=
  {| ticksPerSecond := ticksPerSecond s; recordBuffer := recordBuffer s;
     recordBufferIndex := v;
     lastSerializedIndex := lastSerializedIndex s;
     beginningEpoch := beginningEpoch s;
     telemetry_active := telemetry_active s;
     intervalIDCounter := intervalIDCounter s |}.
Definition set_lastSerializedIndex (v : Z) (s : Statics) : Statics :=
  {| ticksPerSecond := ticksPerSecond s; recordBuffer := recordBuffer s;
     recordBufferIndex := recordBufferIndex s;
     lastSerializedIndex := v;
     beginningEpoch := beginningEpoch s;
     telemetry_active := telemetry_active s;
     intervalIDCounter := intervalIDCounter s |}.
Definition set_beginningEpoch (v : Z) (s : Statics) : Statics :=
  {| ticksPerSecond := ticksPerSecond s; recordBuffer := recordBuffer s;
     recordBufferIndex := recordBufferIndex s;
     lastSerializedIndex := lastSerializedIndex s;
     beginningEpoch := v;
     telemetry_active := telemetry_active s;
     intervalIDCounter := intervalIDCounter s |}.
Definition set_telemetry_active (v : Z) (s : Statics) : Statics :=
  {| ticksPerSecond := ticksPerSecond s; recordBuffer := recordBuffer s;
     recordBufferIndex := recordBufferIndex s;
     lastSerializedIndex := lastSerializedIndex s;
     beginningEpoch := beginningEpoch s;
     telemetry_active := v;
     intervalIDCounter := intervalIDCounter s |}.
Definition set_intervalIDCounter (v : Z) (s : Statics) : Statics :=
  {| ticksPerSecond := ticksPerSecond s; recordBuffer := recordBuffer s;
     recordBufferIndex := recordBufferIndex s;
     lastSerializedIndex := lastSerializedIndex s;
     beginningEpoch := beginningEpoch s;
     telemetry_active := telemetry_active s;
     intervalIDCounter := v |}.

(** [READ_TSC(tscValue)]: the next reading of the 64-bit cycle counter. *)
Definition READ_TSC : M Z :=
  fun m =>
    let v := to_ull (tsc_now (env m)) in
    Some (v, {| statics := statics m; env := env_tsc v (env m) |}).

(** [clock_gettime(CLOCK_MONOTONIC, &t)]. *)
Definition clock_gettime_MONOTONIC : M timespec :=
  fun m =>
    Some (clock_now (env m),
          {| statics := statics m; env := env_clock (env m) |}).

Definition sleep (seconds : Z) : M unit := emit (ESleep seconds).

Definition fprintf (stream : FILE) (format : string) (args : list printf_arg)
  : M unit := emit (EFprintf stream format args).

(** ** Slot allocation *)

(** [__atomic_compare_exchange_n(&recordBufferIndex, &expected, desired, ...)]
    in a run where no other thread touches the cursor in between. *)
Definition atomic_compare_exchange_recordBufferIndex (expected desired : Z)
  : M bool :=
  let* cur := load recordBufferIndex in
  if cur =? expected
  then run* modify (set_recordBufferIndex desired) in ret true
  else ret false.

(** The do-while loop of [newRecord]; [fuel] bounds the number of rounds.
    The result is the index of the slot whose address the C code returns. *)
Fixpoint newRecord_loop (fuel : nat) : M Z :=
  match fuel with
  | O => undefined
  | S fuel' =>
      let* recordIndex := load recordBufferIndex in
      let* cursor := load recordBufferIndex in
      let newBufferIndex := to_uint (cursor + 1) mod RECORD_BUFFER_SIZE in
      let* ok :=
        atomic_compare_exchange_recordBufferIndex recordIndex newBufferIndex in
      if ok : bool then ret recordIndex else newRecord_loop fuel'
  end.

(** Alone on the cursor the exchange succeeds in the first round
    ([newRecord_loop_fuel] below: more fuel changes nothing). *)
Definition newRecord : M Z := newRecord_loop 1.

(** ** Stores through a record pointer

    A [struct TelemetryRecord *] into [recordBuffer] is the index of its
    slot; an index outside the array is undefined behaviour. *)

Definition slot (i : Z) : M TelemetryRecord :=
  fun m =>
    if (0 <=? i) && (i <? RECORD_BUFFER_SIZE)
    then match recordBuffer (statics m) !! Z.to_nat i with
         | Some r => Some (r, m)
         | None => None
         end
    else None.

Definition update_slot (i : Z) (f : TelemetryRecord -> TelemetryRecord)
  : M unit :=
  let* r := slot i in
  modify (fun s => set_recordBuffer (<[Z.to_nat i := f r]> (recordBuffer s)) s).

Definition set_recordType (v : RecordType) (r : TelemetryRecord) :=
  {| recordType := v; threadID := threadID r; u := u r |}.
Definition set_threadID (v : Z) (r : TelemetryRecord) :=
  {| recordType := recordType r; threadID := v; u := u r |}.
Definition set_u (v : payload) (r : TelemetryRecord) :=
  {| recordType := recordType r; threadID := threadID r; u := v |}.

(** ** The producers *)

Definition intervalIDCounter_fetch_add (n : Z) : M Z :=
  let* old := load intervalIDCounter in
  run* modify (set_intervalIDCounter (to_uint (old + n))) in
  ret old.

Definition takeTimeStamp (threadID : Z) (description : string) : M unit :=
  let* active := load telemetry_active in
  if active =? 0 then ret tt else
  let* record := newRecord in
  let* tsc := READ_TSC in
  run* update_slot record (set_recordType TimeStamp) in
  run* update_slot record (set_threadID threadID) in
  update_slot record
    (set_u (timeStamp {| timeStamp_time := tsc;
                         timeStamp_description := description |})).

Definition startInterval (threadID : Z) (description : string) : M Z :=
  let* active := load telemetry_active in
  if active =? 0 then ret 0 else
  let* record := newRecord in
  let* intervalID := intervalIDCounter_fetch_add 1 in
  let* tsc := READ_TSC in
  run* update_slot record (set_recordType IntervalStart) in
  run* update_slot record (set_threadID threadID) in
  run* update_slot record
         (set_u (interval {| interval_time := tsc;
                             interval_intervalID := intervalID;
                             interval_description := description |})) in
  ret intervalID.

(** [intervalID] arrives as an [int] and is stored in an [unsigned int]. *)
Definition stopInterval (threadID : Z) (intervalID : Z) (description : string)
  : M unit :=
  let* active := load telemetry_active in
  if active =? 0 then ret tt else
  let* record := newRecord in
  let* tsc := READ_TSC in
  run* update_slot record (set_recordType IntervalEnd) in
  run* update_slot record (set_threadID threadID) in
  update_slot record
    (set_u (interval {| interval_time := tsc;
                        interval_intervalID := to_uint intervalID;
                        interval_description := description |})).

Definition annotateInterval (subject : Z) (intervalID : Z) (description : string)
  : M unit :=
  let* active := load telemetry_active in
  if active =? 0 then ret tt else
  let* record := newRecord in
  run* update_slot record (set_recordType IntervalAnnotation) in
  run* update_slot record (set_threadID subject) in
  update_slot record
    (set_u (annotation {| annotation_intervalID := to_uint intervalID;
                          annotation_description := description |})).

(** ** Calibration *)

(** The [long] arithmetic on the two [timespec]s is exact for readings of a
    monotonic clock; its result is converted to [unsigned long long]. *)
Definition calibrateTSC (outfile : FILE) : M unit :=
  let* startTime := clock_gettime_MONOTONIC in
  let* startTsc := READ_TSC in
  run* sleep 1 in
  let* endTime := clock_gettime_MONOTONIC in
  let* endTsc := READ_TSC in
  let ticks := to_ull (endTsc - startTsc) in
  let wallClockTime :=
    to_ull ((tv_sec endTime - tv_sec startTime) * 1000000000
            + (tv_nsec endTime - tv_nsec startTime)) in
  run* modify (set_ticksPerSecond
                 (double_of_Z ticks / double_of_Z wallClockTime)%float) in
  let* tps := load ticksPerSecond in
  modify (set_ticksPerSecond (tps * 1000000000.0)%float).

(** ** The serializer *)

Definition dquote : string := String (ascii_of_nat 34) EmptyString.
Definition newline : string := String (ascii_of_nat 10) EmptyString.

Definition fmt_threadID : string := "% 10x ".
Definition fmt_Calibration : string :=
  String.append "Calibration: %f ticks per second" newline.
Definition fmt_Epoch : string := String.append "Epoch counter: %ld" newline.
Definition fmt_TimeStamp : string :=
  String.concat EmptyString
    ["%15ld -|- Time stamp:     "; dquote; "%s"; dquote; newline]%string.
Definition fmt_IntervalStart : string :=
  String.concat EmptyString
    ["%15ld (-  Interval start: "; dquote; "%s"; dquote; " (%d)"; newline]%string.
Definition fmt_IntervalEnd : string :=
  String.concat EmptyString
    ["%15ld  -) Interval stop:  "; dquote; "%s"; dquote; " (%d)"; newline]%string.
Definition fmt_IntervalAnnotation : string :=
  String.concat EmptyString
    ["%15s ??? Annotation:     "; dquote; "%s"; dquote; " (%d)"; newline]%string.

(** Reading a member of the union: defined for the member stored last. *)
Definition read_calibration (r : TelemetryRecord) : M CalibrationRecord :=
  match u r with calibration c => ret c | _ => undefined end.
Definition read_epoch (r : TelemetryRecord) : M EpochRecord :=
  match u r with epoch e => ret e | _ => undefined end.
Definition read_timeStamp (r : TelemetryRecord) : M TimeStampRecord :=
  match u r with timeStamp t => ret t | _ => undefined end.
Definition read_interval (r : TelemetryRecord) : M IntervalRecord :=
  match u r with interval i => ret i | _ => undefined end.
Definition read_annotation (r : TelemetryRecord) : M struct_IntervalAnnotation :=
  match u r with annotation a => ret a | _ => undefined end.

(** The body of the [for] loop of [serializeTelemetryBufferRange]. *)
Definition serialize_slot (outfile : FILE) (i : Z) : M unit :=
  let* record := slot i in
  run* fprintf outfile fmt_threadID [arg_intptr (threadID record)] in
  let* beginning := load beginningEpoch in
  match recordType record with
  | Calibration =>
      let* c := read_calibration record in
      fprintf outfile fmt_Calibration
        [arg_double (calibration_ticksPerSecond c)]
  | Epoch =>
      let* e := read_epoch record in
      fprintf outfile fmt_Epoch [arg_ull (epoch_time e)]
  | TimeStamp =>
      let* t := read_timeStamp record in
      fprintf outfile fmt_TimeStamp
        [arg_ull (to_ull (timeStamp_time t - beginning));
         arg_str (timeStamp_description t)]
  | IntervalStart =>
      let* i := read_interval record in
      fprintf outfile fmt_IntervalStart
        [arg_ull (to_ull (interval_time i - beginning));
         arg_str (interval_description i);
         arg_uint (interval_intervalID i)]
  | IntervalEnd =>
      let* i := read_interval record in
      fprintf outfile fmt_IntervalEnd
        [arg_ull (to_ull (interval_time i - beginning));
         arg_str (interval_description i);
         arg_uint (interval_intervalID i)]
  | IntervalAnnotation =>
      let* a := read_annotation record in
      fprintf outfile fmt_IntervalAnnotation
        [arg_str " ";
         arg_str (annotation_description a);
         arg_uint (annotation_intervalID a)]
  end.

(** [for (i = serializationStart; i < serializationEnd; i++)], entered at
    [i].  Both bounds are [unsigned int], so [i + 1] does not wrap while
    [i < serializationEnd]. *)
Equations? serialize_from (outfile : FILE) (i serializationEnd : Z)
  (m : Machine) : option (unit * Machine)
  by wf (Z.to_nat (serializationEnd - i)) lt :=
  serialize_from outfile i serializationEnd m with Z_lt_dec i serializationEnd => {
    | left _ with serialize_slot outfile i m => {
        | Some (_, m') => serialize_from outfile (i + 1) serializationEnd m'
        | None => None }
    | right _ => Some (tt, m) }.
Proof. lia. Qed.

Definition serializeTelemetryBufferRange (outfile : FILE)
  (serializationStart serializationEnd : Z) : M unit :=
  serialize_from outfile serializationStart serializationEnd.

Definition serializeTelemetryBuffer (outfile : FILE) : M unit :=
  let* serializationEnd := load recordBufferIndex in
  let* serializationStart := load lastSerializedIndex in
  run* (if serializationEnd <? serializationStart
        then run* serializeTelemetryBufferRange outfile
                    serializationStart RECORD_BUFFER_SIZE in
             serializeTelemetryBufferRange outfile 0 serializationEnd
        else serializeTelemetryBufferRange outfile
               serializationStart serializationEnd) in
  modify (set_lastSerializedIndex serializationEnd).

(** ** Initialisation *)

(** [pthread_create] starts [backgroundSerialization]; the event records
    that the thread exists from here on. *)
Definition initTelemetry (outfile : FILE) : M unit :=
  run* modify (set_telemetry_active 1) in
  run* calibrateTSC outfile in
  let* calibrationRecord := newRecord in
  let* tps := load ticksPerSecond in
  run* update_slot calibrationRecord
         (set_u (calibration {| calibration_ticksPerSecond := tps |})) in
  run* update_slot calibrationRecord (set_recordType Calibration) in
  let* epochRecord := newRecord in
  let* tsc := READ_TSC in
  run* update_slot epochRecord (set_u (epoch {| epoch_time := tsc |})) in
  run* update_slot epochRecord (set_recordType Epoch) in
  let* e := bind (slot epochRecord) read_epoch in
  run* modify (set_beginningEpoch (epoch_time e)) in
  emit (EPthreadCreate outfile).

(** ** What a [fprintf] call puts on a line

    A format string is cut into its literal text and its conversion
    directives, each directive paired with the argument it consumes. *)

Inductive piece :=
| Text (s : string)
| Conv (directive : string) (a : printf_arg)
| ConvMissing (directive : string).

Definition is_conversion (c : ascii) : bool :=
  existsb (Ascii.eqb c) (list_ascii_of_string "diouxXfFeEgGaAcspn").

Definition snoc (s : string) (c : ascii) : string :=
  String.append s (String c EmptyString).

Definition text_piece (s : string) : list piece :=
  match s with
  | EmptyString => []
  | _ => [Text s]
  end.

(** [text] is the literal text read so far, [directive] the directive being
    read, if any. *)
Fixpoint split_format (format text : string) (directive : option string)
  (args : list printf_arg) : list piece :=
  match format with
  | EmptyString =>
      match directive with
      | None => text_piece text
      | Some d => [ConvMissing d]
      end
  | String c rest =>
      match directive with
      | None =>
          if Ascii.eqb c "%"
          then text_piece text ++ split_format rest EmptyString (Some "%"%string) args
          else split_format rest (snoc text c) None args
      | Some d =>
          if is_conversion c then
            match args with
            | a :: args' =>
                Conv (snoc d c) a :: split_format rest EmptyString None args'
            | [] =>
                ConvMissing (snoc d c) :: split_format rest EmptyString None []
            end
          else if Ascii.eqb c "%"
          then Text "%" :: split_format rest EmptyString None args
          else split_format rest EmptyString (Some (snoc d c)) args
      end
  end.

Definition pieces (e : Event) : list piece :=
  match e with
  | EFprintf _ format args => split_format format EmptyString None args
  | _ => []
  end.

Definition line_pieces (es : list Event) : list piece := flat_map pieces es.

(** The integer an integer conversion prints.  An integer argument travels
    in a 64-bit slot; [d] and [x] read its low 32 bits as [int] and as
    [unsigned int], [ld] reads all of it as [long]. *)
Definition arg_Z (a : printf_arg) : option Z :=
  match a with
  | arg_intptr v | arg_ull v | arg_uint v => Some v
  | arg_double _ | arg_str _ => None
  end.

Fixpoint last_ascii (s : string) (d : ascii) : ascii :=
  match s with
  | EmptyString => d
  | String c rest => last_ascii rest c
  end.

Fixpoint has_ascii (c : ascii) (s : string) : bool :=
  match s with
  | EmptyString => false
  | String c' rest => Ascii.eqb c c' || has_ascii c rest
  end.

Definition printed_Z (directive : string) (a : printf_arg) : option Z :=
  v ← arg_Z a;
  let long := has_ascii "l" directive in
  if Ascii.eqb (last_ascii directive "%") "d"
  then Some (if long then to_long v else to_int v)
  else if Ascii.eqb (last_ascii directive "%") "x"
  then Some (if long then to_ull v else to_uint v)
  else None.

(** The field width of a directive: its decimal digits. *)
Definition digit_of (c : ascii) : option nat :=
  let n := nat_of_ascii c in
  if (48 <=? n)%nat && (n <=? 57)%nat then Some (n - 48)%nat else None.

Fixpoint width_of (directive : string) (acc : nat) : nat :=
  match directive with
  | EmptyString => acc
  | String c rest =>
      match digit_of c with
      | Some d => width_of rest (10 * acc + d)
      | None => width_of rest acc
      end
  end.

Fixpoint blanks (n : nat) : string :=
  match n with
  | O => EmptyString
  | S n' => String " " (blanks n')
  end.

(** What [%Ns] prints: the string, right-justified in [N] columns. *)
Definition printed_s (directive : string) (a : printf_arg) : option string :=
  match a with
  | arg_str s =>
      Some (String.append
              (blanks (width_of directive 0 - String.length s)) s)
  | _ => None
  end.

(** ** Runs of the recorder *)

Inductive Call :=
| call_takeTimeStamp (threadID : Z) (description : string)
| call_startInterval (threadID : Z) (description : string)
| call_stopInterval (threadID : Z) (intervalID : Z) (description : string)
| call_annotateInterval (subject : Z) (intervalID : Z) (description : string)
| call_serializeTelemetryBuffer (outfile : FILE).

(** What a call hands back: nothing, or the interval identifier. *)
Definition perform (c : Call) : M (option Z) :=
  match c with
  | call_takeTimeStamp t d => run* takeTimeStamp t d in ret None
  | call_startInterval t d => let* id := startInterval t d in ret (Some id)
  | call_stopInterval t i d => run* stopInterval t i d in ret None
  | call_annotateInterval t i d => run* annotateInterval t i d in ret None
  | call_serializeTelemetryBuffer f => run* serializeTelemetryBuffer f in ret None
  end.

Fixpoint run (cs : list Call) : M (list (option Z)) :=
  match cs with
  | [] => ret []
  | c :: cs' =>
      let* r := perform c in
      let* rs := run cs' in
      ret (r :: rs)
  end.

(** [n] allocations in a row, with the indices they return. *)
Fixpoint allocations (n : nat) : M (list Z) :=
  match n with
  | O => ret []
  | S n' =>
      let* i := newRecord in
      let* rest := allocations n' in
      ret (i :: rest)
  end.

(** ** Well-formed machines *)

Definition well_tagged (r : TelemetryRecord) : Prop :=
  match recordType r, u r with
  | Calibration, calibration _
  | Epoch, epoch _
  | TimeStamp, timeStamp _
  | IntervalStart, interval _
  | IntervalEnd, interval _
  | IntervalAnnotation, annotation _ => True
  | _, _ => False
  end.

Record wf (m : Machine) : Prop := {
  wf_length :
    length (recordBuffer (statics m)) = Z.to_nat RECORD_BUFFER_SIZE;
  wf_write : 0 <= recordBufferIndex (statics m) < RECORD_BUFFER_SIZE;
  wf_drain : 0 <= lastSerializedIndex (statics m) < RECORD_BUFFER_SIZE;
  wf_tagged : Forall well_tagged (recordBuffer (statics m))
}.

(** ** Machines left behind

    The definitions of this section are not code of the recorder: they name
    the machine a function of the C file leaves behind and the events it
    adds to the trace.  Each is tied to the function by an equation proved
    below ([newRecord_eq], [takeTimeStamp_active], [calibrateTSC_eq],
    [initTelemetry_eq], [serialize_slot_eq], [serializeTelemetryBuffer_eq]). *)

(** The cursor after an allocation. *)
Definition advance (s : Statics) : Statics :=
  set_recordBufferIndex
    (to_uint (recordBufferIndex s + 1) mod RECORD_BUFFER_SIZE) s.

Definition allocated (m : Machine) : Machine :=
  {| statics := advance (statics m); env := env m |}.

#[global] Instance TelemetryRecord_inhabited : Inhabited TelemetryRecord :=
  populate zero_record.

(** [recordBuffer[i]], and the machine after [recordBuffer[i] = r]. *)
Definition get_slot (i : Z) (m : Machine) : TelemetryRecord :=
  recordBuffer (statics m) !!! Z.to_nat i.
Definition put_slot (i : Z) (r : TelemetryRecord) (m : Machine) : Machine :=
  {| statics :=
       set_recordBuffer (<[Z.to_nat i := r]> (recordBuffer (statics m)))
         (statics m);
     env := env m |}.

(** [i] indexes a slot of the array. *)
Definition in_buffer (i : Z) (m : Machine) : Prop :=
  0 <= i < RECORD_BUFFER_SIZE /\
  length (recordBuffer (statics m)) = Z.to_nat RECORD_BUFFER_SIZE.

(** The machine after [READ_TSC]. *)
Definition ticked (m : Machine) : Machine :=
  {| statics := statics m;
     env := env_tsc (to_ull (tsc_now (env m))) (env m) |}.

(** A producer that is let through takes the slot under the cursor, reads
    the cycle counter if it stamps its record, and fills the slot. *)
Definition produced (stamped : bool) (r : TelemetryRecord) (m : Machine)
  : Machine :=
  put_slot (recordBufferIndex (statics m)) r
    (if stamped then ticked (allocated m) else allocated m).

Definition bump_intervalIDCounter (m : Machine) : Machine :=
  {| statics :=
       set_intervalIDCounter (to_uint (intervalIDCounter (statics m) + 1))
         (statics m);
     env := env m |}.

(** The factor [calibrateTSC] computes from its four readings. *)
Definition calibration_factor (startTime : timespec) (startTsc : Z)
  (endTime : timespec) (endTsc : Z) : float :=
  let cycleDelta := to_ull (endTsc - startTsc) in
  let wallNanosDelta :=
    to_ull ((tv_sec endTime - tv_sec startTime) * 1000000000
            + (tv_nsec endTime - tv_nsec startTime)) in
  (double_of_Z cycleDelta / double_of_Z wallNanosDelta * 1000000000.0)%float.

(** The machine after [calibrateTSC]. *)
Definition calibrated (m : Machine) : Machine :=
  let startTime := clock_now (env m) in
  let w1 := env_clock (env m) in
  let startTsc := to_ull (tsc_now w1) in
  let w2 := env_emit (ESleep 1) (env_tsc startTsc w1) in
  let endTime := clock_now w2 in
  let w3 := env_clock w2 in
  let endTsc := to_ull (tsc_now w3) in
  {| statics :=
       set_ticksPerSecond
         (calibration_factor startTime startTsc endTime endTsc) (statics m);
     env := env_tsc endTsc w3 |}.

(** The machine after [initTelemetry]. *)
Definition activated (m : Machine) : Machine :=
  {| statics := set_telemetry_active 1 (statics m); env := env m |}.

Definition with_calibration_record (m : Machine) : Machine :=
  let c := recordBufferIndex (statics m) in
  put_slot c
    {| recordType := Calibration;
       threadID := threadID (get_slot c m);
       u := calibration
              {| calibration_ticksPerSecond := ticksPerSecond (statics m) |} |}
    (allocated m).

Definition with_epoch_record (m : Machine) : Machine :=
  let e := recordBufferIndex (statics m) in
  let tsc := to_ull (tsc_now (env m)) in
  let m' := put_slot e
              {| recordType := Epoch;
                 threadID := threadID (get_slot e m);
                 u := epoch {| epoch_time := tsc |} |}
              (ticked (allocated m)) in
  {| statics := set_beginningEpoch tsc (statics m'); env := env m' |}.

Definition initialised (outfile : FILE) (m : Machine) : Machine :=
  let m' := with_epoch_record (with_calibration_record (calibrated (activated m))) in
  {| statics := statics m';
     env := env_emit (EPthreadCreate outfile) (env m') |}.

(** The machine after some more events. *)
Definition emitted (es : list Event) (m : Machine) : Machine :=
  {| statics := statics m;
     env := {| tsc_feed := tsc_feed (env m); tsc_reads := tsc_reads (env m);
               clock_feed := clock_feed (env m);
               clock_reads := clock_reads (env m);
               trace := trace (env m) ++ es |} |}.

(** The two [fprintf] calls that make the line of a record whose union
    holds the member its [recordType] names ([serialize_slot_eq] below). *)
Definition line (outfile : FILE) (beginning : Z) (r : TelemetryRecord)
  : list Event :=
  EFprintf outfile fmt_threadID [arg_intptr (threadID r)] ::
  match recordType r, u r with
  | Calibration, calibration c =>
      [EFprintf outfile fmt_Calibration
         [arg_double (calibration_ticksPerSecond c)]]
  | Epoch, epoch e => [EFprintf outfile fmt_Epoch [arg_ull (epoch_time e)]]
  | TimeStamp, timeStamp t =>
      [EFprintf outfile fmt_TimeStamp
         [arg_ull (to_ull (timeStamp_time t - beginning));
          arg_str (timeStamp_description t)]]
  | IntervalStart, interval i =>
      [EFprintf outfile fmt_IntervalStart
         [arg_ull (to_ull (interval_time i - beginning));
          arg_str (interval_description i);
          arg_uint (interval_intervalID i)]]
  | IntervalEnd, interval i =>
      [EFprintf outfile fmt_IntervalEnd
         [arg_ull (to_ull (interval_time i - beginning));
          arg_str (interval_description i);
          arg_uint (interval_intervalID i)]]
  | IntervalAnnotation, annotation a =>
      [EFprintf outfile fmt_IntervalAnnotation
         [arg_str " ";
          arg_str (annotation_description a);
          arg_uint (annotation_intervalID a)]]
  | _, _ => []
  end.

(** The lines of the slots [slots], in that order. *)
Definition lines (outfile : FILE) (m : Machine) (slots : list Z) : list Event :=
  flat_map
    (fun i => line outfile (beginningEpoch (statics m)) (get_slot i m)) slots.

(** The machine after a drain pass that printed the slots [slots]. *)
Definition drained (outfile : FILE) (slots : list Z) (m : Machine) : Machine :=
  {| statics :=
       set_lastSerializedIndex (recordBufferIndex (statics m)) (statics m);
     env := env (emitted (lines outfile m slots) m) |}.

(** The interval identifiers among the results of a run, in call order,
    and the number of [startInterval] calls of a run. *)
Definition interval_ids (rs : list (option Z)) : list Z := omap id rs.

Definition is_startInterval (c : Call) : bool :=
  match c with
  | call_startInterval _ _ => true
  | _ => false
  end.

Fixpoint starts (cs : list Call) : Z :=
  match cs with
  | [] => 0
  | c :: cs' => (if is_startInterval c then 1 else 0) + starts cs'
  end.

(** The slots a drain pass goes through, in its order. *)
Definition drain_slots (m : Machine) : list Z :=
  let start := lastSerializedIndex (statics m) in
  let end_ := recordBufferIndex (statics m) in
  if end_ <? start
  then seqZ start (RECORD_BUFFER_SIZE - start) ++ seqZ 0 end_
  else seqZ start (end_ - start).

(** What a call keeps. *)
Record kept (m m' : Machine) : Prop := {
  kept_wf : wf m';
  kept_active : telemetry_active (statics m') = telemetry_active (statics m);
  kept_epoch : beginningEpoch (statics m') = beginningEpoch (statics m)
}.

(** The raw cycle count a record carries, if its member has one. *)
Definition cycle_count (r : TelemetryRecord) : option Z :=
  match u r with
  | epoch e => Some (epoch_time e)
  | timeStamp t => Some (timeStamp_time t)
  | interval i => Some (interval_time i)
  | calibration _ | annotation _ => None
  end.

(** ** Several producers inside [newRecord]

    Threads that call [newRecord] over and over, interleaved at the
    accesses to [recordBufferIndex]: each of the two plain loads and the
    compare-and-exchange is one step of one thread, and a step sees the
    cursor as the step before it left it. *)
Module Conc.

(** Where a thread stands in the loop body, with its locals. *)
Inductive pc :=
| at_load_recordIndex
| at_load_newBufferIndex (recordIndex : Z)
| at_compare_exchange (recordIndex newBufferIndex : Z).

(** [grants] lists the calls that returned, newest first: the thread
    and the index of the slot it got. *)
Record state := {
  cursor : Z;
  threads : list pc;
  grants : list (nat * Z)
}.

Definition init (n : nat) : state :=
  {| cursor := 0; threads := replicate n at_load_recordIndex; grants := [] |}.

Definition move (t : nat) (p : pc) (s : state) : state :=
  {| cursor := cursor s; threads := <[t := p]> (threads s);
     grants := grants s |}.

(** One step of thread [t].  A successful exchange ends the call; the
    thread's next step starts its next call.  A failed one starts the
    next round of the loop. *)
Definition step (t : nat) (s : state) : state :=
  match threads s !! t with
  | None => s
  | Some at_load_recordIndex =>
      move t (at_load_newBufferIndex (cursor s)) s
  | Some (at_load_newBufferIndex recordIndex) =>
      move t (at_compare_exchange recordIndex
                (to_uint (cursor s + 1) mod RECORD_BUFFER_SIZE)) s
  | Some (at_compare_exchange recordIndex newBufferIndex) =>
      if cursor s =? recordIndex
      then {| cursor := newBufferIndex;
              threads := <[t := at_load_recordIndex]> (threads s);
              grants := (t, recordIndex) :: grants s |}
      else move t at_load_recordIndex s
  end.

Definition exec (schedule : list nat) (s : state) : state :=
  fold_left (fun s t => step t s) schedule s.

(** For comparison only, the loop body as the design document words it:
    the cursor is read once and the next index is computed from the
    value read. *)
Definition step_as_specified (t : nat) (s : state) : state :=
  match threads s !! t with
  | Some (at_load_newBufferIndex recordIndex) =>
      move t (at_compare_exchange recordIndex
                (to_uint (recordIndex + 1) mod RECORD_BUFFER_SIZE)) s
  | _ => step t s
  end.

Definition exec_as_specified (schedule : list nat) (s : state) : state :=
  fold_left (fun s t => step_as_specified t s) schedule s.

(** Thread 0 is preempted after its first load while thread 1 completes
    9999 calls, and again after its second load while thread 1 completes
    one more; then thread 0 finishes its call and thread 1 makes
    another. *)
Definition stalled_schedule : list nat :=
  [0%nat] ++ replicate (3 * Z.to_nat 9999) 1%nat
  ++ [0%nat] ++ replicate 3 1%nat
  ++ [0%nat] ++ replicate 3 1%nat.

(** The same schedule up to, and without, the compare-and-exchange of
    thread 0. *)
Definition stalled_until_exchange : list nat :=
  [0%nat] ++ replicate (3 * Z.to_nat 9999) 1%nat
  ++ [0%nat] ++ replicate 3 1%nat.

End Conc.

(** [wf], as a check that can be run. *)
Definition well_taggedb (r : TelemetryRecord) : bool :=
  match recordType r, u r with
  | Calibration, calibration _
  | Epoch, epoch _
  | TimeStamp, timeStamp _
  | IntervalStart, interval _
  | IntervalEnd, interval _
  | IntervalAnnotation, annotation _ => true
  | _, _ => false
  end.

Definition wfb (m : Machine) : bool :=
  (length (recordBuffer (statics m)) =? Z.to_nat RECORD_BUFFER_SIZE)%nat
  && (0 <=? recordBufferIndex (statics m))
  && (recordBufferIndex (statics m) <? RECORD_BUFFER_SIZE)
  && (0 <=? lastSerializedIndex (statics m))
  && (lastSerializedIndex (statics m) <? RECORD_BUFFER_SIZE)
  && forallb well_taggedb (recordBuffer (statics m)).

(** A machine that serves as an example: just loaded, with a cycle counter
    that advances by 1000 per reading and a clock that advances by one
    second per reading. *)
Definition sample_machine : Machine :=
  boot (fun n => 1000 * Z.of_nat n + 17)
       (fun n => {| tv_sec := Z.of_nat n; tv_nsec := 5 |}).

(** An initialised machine whose write cursor has gone round once since
    the last drain pass: the drain cursor is at 9998, the write cursor at 2,
    and the last two slots hold a time stamp and an annotation. *)
Definition wrapped_machine : Machine :=
  let m :=
    put_slot 9998
      {| recordType := TimeStamp; threadID := 7;
         u := timeStamp {| timeStamp_time := 5017;
                           timeStamp_description := "late" |} |}
      (put_slot 9999
         {| recordType := IntervalAnnotation; threadID := 8;
            u := annotation {| annotation_intervalID := 3;
                               annotation_description := "note" |} |}
         (initialised 1%nat sample_machine)) in
  {| statics := set_lastSerializedIndex 9998 (statics m); env := env m |}.

(** ** Runs of producers

    As in the section before: names for what the calls of a run leave
    behind, tied to [perform] and [run] by [perform_producer] and
    [run_producers] below. *)

Definition is_producer (c : Call) : bool :=
  match c with
  | call_serializeTelemetryBuffer _ => false
  | _ => true
  end.

(** The record a producer called on [m] leaves in its slot. *)
Definition record_of (c : Call) (m : Machine) : TelemetryRecord :=
  match c with
  | call_takeTimeStamp t d =>
      {| recordType := TimeStamp; threadID := t;
         u := timeStamp {| timeStamp_time := to_ull (tsc_now (env m));
                           timeStamp_description := d |} |}
  | call_startInterval t d =>
      {| recordType := IntervalStart; threadID := t;
         u := interval {| interval_time := to_ull (tsc_now (env m));
                          interval_intervalID := intervalIDCounter (statics m);
                          interval_description := d |} |}
  | call_stopInterval t i d =>
      {| recordType := IntervalEnd; threadID := t;
         u := interval {| interval_time := to_ull (tsc_now (env m));
                          interval_intervalID := to_uint i;
                          interval_description := d |} |}
  | call_annotateInterval t i d =>
      {| recordType := IntervalAnnotation; threadID := t;
         u := annotation {| annotation_intervalID := to_uint i;
                            annotation_description := d |} |}
  | call_serializeTelemetryBuffer _ => zero_record
  end.

Definition stamps (c : Call) : bool :=
  match c with
  | call_annotateInterval _ _ _ => false
  | _ => true
  end.

Definition after_producer (c : Call) (m : Machine) : Machine :=
  produced (stamps c) (record_of c m)
    (if is_startInterval c then bump_intervalIDCounter m else m).

Definition result_of (c : Call) (m : Machine) : option Z :=
  if is_startInterval c then Some (intervalIDCounter (statics m)) else None.

Fixpoint after_producers (cs : list Call) (m : Machine) : Machine :=
  match cs with
  | [] => m
  | c :: cs' => after_producers cs' (after_producer c m)
  end.

(** The records the calls of a run leave in their slots, read back right
    after each call, in call order. *)
Fixpoint written (cs : list Call) (m : Machine) : list TelemetryRecord :=
  match cs with
  | [] => []
  | c :: cs' =>
      match perform c m with
      | Some (_, m1) =>
          get_slot (recordBufferIndex (statics m)) m1 :: written cs' m1
      | None => []
      end
  end.

(** The example machine after [initTelemetry] and a first drain pass. *)
Definition drained_sample : Machine :=
  drained 1%nat (drain_slots (initialised 1%nat sample_machine))
    (initialised 1%nat sample_machine).

(** The same machine with the interval counter at its last value. *)
Definition last_id_sample : Machine :=
  {| statics := set_intervalIDCounter 4294967295 (statics drained_sample);
     env := env drained_sample |}.

(** What holds of every state the producers of [Conc] can reach: the
    cursor and the indices the threads hold are indices of the array. *)
Definition in_array (i : Z) : Prop := 0 <= i < RECORD_BUFFER_SIZE.

Definition pc_in_array (p : Conc.pc) : Prop :=
  match p with
  | Conc.at_load_recordIndex => True
  | Conc.at_load_newBufferIndex recordIndex => in_array recordIndex
  | Conc.at_compare_exchange recordIndex newBufferIndex =>
      in_array recordIndex /\ in_array newBufferIndex
  end.

Record conc_in_array (s : Conc.state) : Prop := {
  cursor_in_array : in_array (Conc.cursor s);
  threads_in_array : Forall pc_in_array (Conc.threads s);
  grants_in_array : Forall (fun g => in_array (snd g)) (Conc.grants s)
}.

(** ** The background thread and [finishTelemetry]

    [backgroundSerialization] runs in a thread of its own.  Its steps are
    the test of the loop, the [sleep], the call of
    [serializeTelemetryBuffer] and the [fclose]; the calls of the other
    threads come between them.  The process also holds the flag the loop
    tests and the streams that were closed. *)
Module Background.

Inductive pc :=
| not_started
| at_test (outfile : FILE)
| at_sleep (outfile : FILE)
| at_serialize (outfile : FILE)
| at_fclose (outfile : FILE)
| returned
| joined.

Record process := {
  machine : Machine;
  continueBackgroundSerialization : Z;
  thread : pc;
  closed : list FILE
}.

(** The process right after loading. *)
Definition boot (tsc : nat -> Z) (clock : nat -> timespec) : process :=
  {| machine := boot tsc clock;
     continueBackgroundSerialization := 1;
     thread := not_started;
     closed := [] |}.

Definition goto (t : pc) (p : process) : process :=
  {| machine := machine p;
     continueBackgroundSerialization := continueBackgroundSerialization p;
     thread := t; closed := closed p |}.

Definition on_machine (m : Machine) (p : process) : process :=
  {| machine := m;
     continueBackgroundSerialization := continueBackgroundSerialization p;
     thread := thread p; closed := closed p |}.

(** One step of the background thread; a thread that does not run has
    none. *)
Definition step (p : process) : option process :=
  match thread p with
  | at_test outfile =>
      if continueBackgroundSerialization p =? 0
      then Some (goto (at_fclose outfile) p)
      else Some (goto (at_sleep outfile) p)
  | at_sleep outfile =>
      match sleep 1 (machine p) with
      | Some (_, m) => Some (goto (at_serialize outfile) (on_machine m p))
      | None => None
      end
  | at_serialize outfile =>
      match serializeTelemetryBuffer outfile (machine p) with
      | Some (_, m) => Some (goto (at_test outfile) (on_machine m p))
      | None => None
      end
  | at_fclose outfile =>
      Some {| machine := machine p;
              continueBackgroundSerialization :=
                continueBackgroundSerialization p;
              thread := returned;
              closed := closed p ++ [outfile] |}
  | not_started | returned | joined => Some p
  end.

Fixpoint steps (n : nat) (p : process) : option process :=
  match n with
  | O => Some p
  | S n' =>
      match step p with
      | Some p' => steps n' p'
      | None => None
      end
  end.

(** A call of a producer or of the serializer by another thread. *)
Definition call (c : Call) (p : process) : option (option Z * process) :=
  match perform c (machine p) with
  | Some (r, m) => Some (r, on_machine m p)
  | None => None
  end.

(** [initTelemetry], with the thread [pthread_create] starts.  While an
    earlier background thread still runs, a second one would drain beside
    it; that is left undefined. *)
Definition initTelemetry (outfile : FILE) (p : process) : option process :=
  match thread p with
  | at_test _ | at_sleep _ | at_serialize _ | at_fclose _ => None
  | not_started | returned | joined =>
      match initTelemetry outfile (machine p) with
      | Some (_, m) => Some (goto (at_test outfile) (on_machine m p))
      | None => None
      end
  end.

(** [pthread_join]: the caller waits, the background thread runs until it
    has returned.  [fuel] bounds the steps waited for.  Joining a thread
    that was never created, or was joined before, is undefined. *)
Fixpoint pthread_join (fuel : nat) (p : process) : option process :=
  match thread p with
  | returned => Some (goto joined p)
  | not_started | joined => None
  | _ =>
      match fuel with
      | O => None
      | S fuel' =>
          match step p with
          | Some p' => pthread_join fuel' p'
          | None => None
          end
      end
  end.

Definition finishTelemetry (fuel : nat) (p : process) : option process :=
  pthread_join fuel
    {| machine := machine p;
       continueBackgroundSerialization := 0;
       thread := thread p; closed := closed p |}.

(** What happens next in the process: a step of the background thread,
    or a call by one of the other threads. *)
Inductive action :=
| background_step
| foreground_call (c : Call).

Definition act (a : action) (p : process) : option process :=
  match a with
  | background_step => step p
  | foreground_call c =>
      match call c p with
      | Some (_, p') => Some p'
      | None => None
      end
  end.

Fixpoint exec (schedule : list action) (p : process) : option process :=
  match schedule with
  | [] => Some p
  | a :: schedule' =>
      match act a p with
      | Some p' => exec schedule' p'
      | None => None
      end
  end.

(** The thread is inside its loop. *)
Definition looping (outfile : FILE) (t : pc) : Prop :=
  t = at_test outfile \/ t = at_sleep outfile \/ t = at_serialize outfile.

(** The thread is inside its loop or about to close the stream. *)
Definition running (outfile : FILE) (t : pc) : Prop :=
  t = at_test outfile \/ t = at_sleep outfile \/
  t = at_serialize outfile \/ t = at_fclose outfile.

End Background.

(** The example machine in a process whose background thread sleeps, with
    the two records of [initTelemetry] not yet drained. *)
Definition sleeping_sample : Background.process :=
  {| Background.machine := initialised 1%nat sample_machine;
     Background.continueBackgroundSerialization := 1;
     Background.thread := Background.at_sleep 1%nat;
     Background.closed := [] |}.

(** The same after a drain pass, the thread back at the test of its loop. *)
Definition testing_sample : Background.process :=
  {| Background.machine := drained_sample;
     Background.continueBackgroundSerialization := 1;
     Background.thread := Background.at_test 1%nat;
     Background.closed := [] |}.

(** The same after [finishTelemetry]. *)
Definition finished_sample : Background.process :=
  {| Background.machine := drained_sample;
     Background.continueBackgroundSerialization := 0;
     Background.thread := Background.joined;
     Background.closed := [1%nat] |}.

(** * Verification *)

(** ** Slot allocation, one producer at a time *)

Lemma to_uint_small z : 0 <= z < 2 ^ 32 -> to_uint z = z.
Proof. intros H. unfold to_uint. apply Z.mod_small. exact H. Qed.

Lemma newRecord_loop_fuel fuel m :
  newRecord_loop (S fuel) m = Some (recordBufferIndex (statics m), allocated m).
Proof.
  cbn [newRecord_loop]. unfold bind, load, atomic_compare_exchange_recordBufferIndex.
  cbn. rewrite Z.eqb_refl. reflexivity.
Qed.

Lemma newRecord_eq m :
  newRecord m = Some (recordBufferIndex (statics m), allocated m).
Proof. apply newRecord_loop_fuel. Qed.

Lemma advance_index s :
  0 <= recordBufferIndex s < RECORD_BUFFER_SIZE ->
  recordBufferIndex (advance s) = (recordBufferIndex s + 1) mod 10000.
Proof.
  intros H. unfold advance, RECORD_BUFFER_SIZE in *. cbn.
  rewrite to_uint_small by lia. reflexivity.
Qed.

Lemma advance_index_range s :
  0 <= recordBufferIndex (advance s) < RECORD_BUFFER_SIZE.
Proof.
  unfold advance, RECORD_BUFFER_SIZE. cbn. apply Z.mod_pos_bound. lia.
Qed.

Lemma allocations_spec n : forall m,
  0 <= recordBufferIndex (statics m) < RECORD_BUFFER_SIZE ->
  exists l m',
    allocations n m = Some (l, m') /\
    length l = n /\
    forall k, (k < n)%nat ->
      l !! k = Some ((recordBufferIndex (statics m) + Z.of_nat k) mod 10000).
Proof.
  induction n as [|n IH]; intros m Hm.
  - exists [], m. repeat split. intros k Hk. lia.
  - cbn [allocations]. unfold bind at 1. rewrite newRecord_eq.
    destruct (IH (allocated m)) as (l & m' & Hrun & Hlen & Hnth).
    { apply advance_index_range. }
    exists (recordBufferIndex (statics m) :: l), m'.
    unfold bind, ret. rewrite Hrun. repeat split.
    + cbn. lia.
    + intros [|k] Hk.
      * cbn. f_equal. rewrite Z.add_0_r, Z.mod_small; [reflexivity|].
        unfold RECORD_BUFFER_SIZE in Hm. lia.
      * cbn [lookup list_lookup]. rewrite Hnth by lia.
        cbn [allocated statics]. rewrite advance_index by exact Hm.
        f_equal. rewrite Zplus_mod_idemp_l. f_equal. lia.
Qed.

(** X16. A call of [newRecord] with no step of another thread inside it
    hands out the value [i] of the write cursor and leaves the cursor at
    [(i + 1) mod 10000], touching nothing else; so in [n] such calls in a
    row the one at position [k + 10000] returns the index the one at
    position [k] returned. *)
Theorem newRecord_advances_and_wraps m :
  0 <= recordBufferIndex (statics m) < RECORD_BUFFER_SIZE ->
  RECORD_BUFFER_SIZE = 10000 /\
  (forall fuel, exists m',
     newRecord_loop (S fuel) m = Some (recordBufferIndex (statics m), m') /\
     newRecord m = Some (recordBufferIndex (statics m), m') /\
     recordBufferIndex (statics m')
       = (recordBufferIndex (statics m) + 1) mod 10000 /\
     statics m'
       = set_recordBufferIndex (recordBufferIndex (statics m')) (statics m) /\
     env m' = env m) /\
  (forall n, exists l m',
     allocations n m = Some (l, m') /\
     length l = n /\
     forall k, (k + Z.to_nat RECORD_BUFFER_SIZE < n)%nat ->
       is_Some (l !! k) /\
       l !! (k + Z.to_nat RECORD_BUFFER_SIZE)%nat = l !! k).
Proof.
  intros Hm. split; [reflexivity|]. split.
  - intros fuel. exists (allocated m).
    rewrite newRecord_loop_fuel, newRecord_eq. repeat split.
    apply advance_index. exact Hm.
  - intros n. destruct (allocations_spec n m Hm) as (l & m' & Hrun & Hlen & Hnth).
    exists l, m'. unfold RECORD_BUFFER_SIZE.
    repeat split; [exact Hrun | exact Hlen | |].
    + rewrite Hnth by lia. eauto.
    + rewrite !Hnth by lia. f_equal.
      rewrite Nat2Z.inj_add, Z2Nat.id by lia.
      change 10000 with (1 * 10000) at 1.
      rewrite Z.add_assoc, Z.mod_add by lia. reflexivity.
Qed.

Lemma newRecord_advances_and_wraps_witness :
  0 <= recordBufferIndex (statics sample_machine) < RECORD_BUFFER_SIZE /\
  exists l m',
    allocations (Z.to_nat 10003) sample_machine = Some (l, m') /\
    l !! (2 + Z.to_nat RECORD_BUFFER_SIZE)%nat = l !! 2%nat.
Proof.
  assert (H0 : 0 <= recordBufferIndex (statics sample_machine)
               < RECORD_BUFFER_SIZE) by (unfold RECORD_BUFFER_SIZE; cbn; lia).
  split; [exact H0|].
  destruct (newRecord_advances_and_wraps sample_machine H0) as (_ & _ & H).
  destruct (H (Z.to_nat 10003)) as (l & m' & Hrun & _ & Hk).
  exists l, m'. split; [exact Hrun|]. apply (Hk 2%nat).
  unfold RECORD_BUFFER_SIZE. lia.
Defined.

(** ** Stores into a slot *)

Lemma slot_eq i m :
  in_buffer i m -> slot i m = Some (get_slot i m, m).
Proof.
  intros [Hi Hlen]. unfold slot, get_slot.
  replace ((0 <=? i) && (i <? RECORD_BUFFER_SIZE)) with true
    by (symmetry; apply andb_true_intro; split; lia).
  destruct (lookup_lt_is_Some_2 (recordBuffer (statics m)) (Z.to_nat i))
    as [r Hr]; [lia|].
  rewrite Hr. erewrite list_lookup_total_correct by exact Hr. reflexivity.
Qed.

Lemma update_slot_eq i f m :
  in_buffer i m ->
  update_slot i f m = Some (tt, put_slot i (f (get_slot i m)) m).
Proof.
  intros H. unfold update_slot, bind. rewrite slot_eq by exact H. reflexivity.
Qed.

Lemma in_buffer_put i j r m : in_buffer i m -> in_buffer i (put_slot j r m).
Proof. intros [Hi Hlen]. split; [exact Hi|]. cbn. rewrite length_insert. exact Hlen. Qed.

Lemma get_put_slot i r m : in_buffer i m -> get_slot i (put_slot i r m) = r.
Proof.
  intros [Hi Hlen]. unfold get_slot, put_slot. cbn.
  apply list_lookup_total_insert_eq. lia.
Qed.

Lemma put_put_slot i r r' m : put_slot i r' (put_slot i r m) = put_slot i r' m.
Proof. unfold put_slot. cbn. rewrite list_insert_insert_eq. reflexivity. Qed.

(** Three stores through the same pointer. *)
Lemma update_slot_thrice i f g h m :
  in_buffer i m ->
  (run* update_slot i f in run* update_slot i g in update_slot i h) m
  = Some (tt, put_slot i (h (g (f (get_slot i m)))) m).
Proof.
  intros H. unfold bind.
  rewrite update_slot_eq by exact H.
  rewrite update_slot_eq by (apply in_buffer_put; exact H).
  rewrite get_put_slot, put_put_slot by exact H.
  rewrite update_slot_eq by (apply in_buffer_put; exact H).
  rewrite get_put_slot, put_put_slot by exact H. reflexivity.
Qed.

Lemma update_slot_thrice_then {A} i f g h (k : M A) m :
  in_buffer i m ->
  (run* update_slot i f in run* update_slot i g in run* update_slot i h in k) m
  = k (put_slot i (h (g (f (get_slot i m)))) m).
Proof.
  intros H. unfold bind.
  rewrite update_slot_eq by exact H.
  rewrite update_slot_eq by (apply in_buffer_put; exact H).
  rewrite get_put_slot, put_put_slot by exact H.
  rewrite update_slot_eq by (apply in_buffer_put; exact H).
  rewrite get_put_slot, put_put_slot by exact H. reflexivity.
Qed.

Lemma update_slot_twice_then {A} i f g (k : M A) m :
  in_buffer i m ->
  (run* update_slot i f in run* update_slot i g in k) m
  = k (put_slot i (g (f (get_slot i m))) m).
Proof.
  intros H. unfold bind.
  rewrite update_slot_eq by exact H.
  rewrite update_slot_eq by (apply in_buffer_put; exact H).
  rewrite get_put_slot, put_put_slot by exact H. reflexivity.
Qed.

(** ** The producers, let through *)

Lemma in_buffer_cursor m :
  wf m -> in_buffer (recordBufferIndex (statics m)) m.
Proof. intros [Hlen Hw _ _]. split; assumption. Qed.

Lemma active_test m :
  telemetry_active (statics m) <> 0 ->
  (telemetry_active (statics m) =? 0) = false.
Proof. intros H. apply Z.eqb_neq. exact H. Qed.

Lemma takeTimeStamp_active t d m :
  wf m -> telemetry_active (statics m) <> 0 ->
  takeTimeStamp t d m
  = Some (tt, produced true
                {| recordType := TimeStamp; threadID := t;
                   u := timeStamp
                          {| timeStamp_time := to_ull (tsc_now (env m));
                             timeStamp_description := d |} |} m).
Proof.
  intros Hwf Hact. unfold takeTimeStamp.
  unfold bind at 1, load. rewrite active_test by exact Hact.
  unfold bind at 1. rewrite newRecord_eq.
  unfold bind at 1, READ_TSC.
  change (env (allocated m)) with (env m).
  change {| statics := statics (allocated m);
            env := env_tsc (to_ull (tsc_now (env m))) (env m) |}
    with (ticked (allocated m)).
  pose proof (in_buffer_cursor m Hwf) as Hin.
  assert (Hin' : in_buffer (recordBufferIndex (statics m)) (ticked (allocated m)))
    by exact Hin.
  rewrite update_slot_thrice by exact Hin'. reflexivity.
Qed.

Lemma startInterval_active t d m :
  wf m -> telemetry_active (statics m) <> 0 ->
  startInterval t d m
  = Some (intervalIDCounter (statics m),
          produced true
            {| recordType := IntervalStart; threadID := t;
               u := interval
                      {| interval_time := to_ull (tsc_now (env m));
                         interval_intervalID := intervalIDCounter (statics m);
                         interval_description := d |} |}
            (bump_intervalIDCounter m)).
Proof.
  intros Hwf Hact. unfold startInterval.
  unfold bind at 1, load. rewrite active_test by exact Hact.
  unfold bind at 1. rewrite newRecord_eq.
  unfold bind at 1, intervalIDCounter_fetch_add, bind, load, modify, ret.
  unfold READ_TSC.
  pose proof (in_buffer_cursor m Hwf) as Hin.
  match goal with
  | |- match update_slot ?i ?f ?m1 with _ => _ end = _ =>
      assert (Hin' : in_buffer i m1) by exact Hin;
      rewrite (update_slot_eq i f m1 Hin')
  end.
  rewrite update_slot_eq by (apply in_buffer_put; exact Hin).
  rewrite get_put_slot, put_put_slot by exact Hin.
  rewrite update_slot_eq by (apply in_buffer_put; exact Hin).
  rewrite get_put_slot, put_put_slot by exact Hin. reflexivity.
Qed.

Lemma stopInterval_active t id d m :
  wf m -> telemetry_active (statics m) <> 0 ->
  stopInterval t id d m
  = Some (tt, produced true
                {| recordType := IntervalEnd; threadID := t;
                   u := interval
                          {| interval_time := to_ull (tsc_now (env m));
                             interval_intervalID := to_uint id;
                             interval_description := d |} |} m).
Proof.
  intros Hwf Hact. unfold stopInterval.
  unfold bind at 1, load. rewrite active_test by exact Hact.
  unfold bind at 1. rewrite newRecord_eq.
  unfold bind at 1, READ_TSC.
  pose proof (in_buffer_cursor m Hwf) as Hin.
  match goal with
  | |- bind (update_slot ?i _) _ ?m1 = _ =>
      assert (Hin' : in_buffer i m1) by exact Hin
  end.
  rewrite update_slot_thrice by exact Hin'. reflexivity.
Qed.

Lemma annotateInterval_active t id d m :
  wf m -> telemetry_active (statics m) <> 0 ->
  annotateInterval t id d m
  = Some (tt, produced false
                {| recordType := IntervalAnnotation; threadID := t;
                   u := annotation
                          {| annotation_intervalID := to_uint id;
                             annotation_description := d |} |} m).
Proof.
  intros Hwf Hact. unfold annotateInterval.
  unfold bind at 1, load. rewrite active_test by exact Hact.
  unfold bind at 1. rewrite newRecord_eq.
  pose proof (in_buffer_cursor m Hwf) as Hin.
  assert (Hin' : in_buffer (recordBufferIndex (statics m)) (allocated m))
    by exact Hin.
  rewrite update_slot_thrice by exact Hin'. reflexivity.
Qed.

(** ** Well-formedness is kept *)

Lemma wfb_sound m : wfb m = true -> wf m.
Proof.
  unfold wfb. rewrite !andb_true_iff.
  intros (((((Hlen & H1) & H2) & H3) & H4) & Ht).
  split.
  - apply Nat.eqb_eq. exact Hlen.
  - lia.
  - lia.
  - apply Forall_forall. intros r Hr.
    rewrite forallb_forall in Ht. apply list_elem_of_In, Ht in Hr.
    unfold well_tagged, well_taggedb in *.
    destruct (recordType r), (u r); try discriminate; exact I.
Qed.

Lemma wf_boot tsc clock : wf (boot tsc clock).
Proof.
  split; cbn.
  - apply length_replicate.
  - unfold RECORD_BUFFER_SIZE. lia.
  - unfold RECORD_BUFFER_SIZE. lia.
  - apply Forall_replicate. exact I.
Qed.

Lemma wf_allocated m : wf m -> wf (allocated m).
Proof.
  intros [Hlen Hw Hd Ht]. split; cbn; try assumption.
  apply (advance_index_range (statics m)).
Qed.

Lemma wf_ticked m : wf m -> wf (ticked m).
Proof. intros [Hlen Hw Hd Ht]. split; assumption. Qed.

Lemma wf_bump m : wf m -> wf (bump_intervalIDCounter m).
Proof. intros [Hlen Hw Hd Ht]. split; assumption. Qed.

Lemma wf_put_slot i r m : wf m -> well_tagged r -> wf (put_slot i r m).
Proof.
  intros [Hlen Hw Hd Ht] Hr. split; cbn; try assumption.
  - rewrite length_insert. exact Hlen.
  - apply Forall_insert; assumption.
Qed.

Lemma wf_produced b r m : wf m -> well_tagged r -> wf (produced b r m).
Proof.
  intros Hwf Hr. unfold produced. apply wf_put_slot; [|exact Hr].
  destruct b; [apply wf_ticked|]; apply wf_allocated; exact Hwf.
Qed.

(** ** Calibration and initialisation *)

Lemma calibrateTSC_eq outfile m :
  calibrateTSC outfile m = Some (tt, calibrated m).
Proof. reflexivity. Qed.

Lemma wf_statics_only m m' :
  recordBuffer (statics m') = recordBuffer (statics m) ->
  recordBufferIndex (statics m') = recordBufferIndex (statics m) ->
  lastSerializedIndex (statics m') = lastSerializedIndex (statics m) ->
  wf m -> wf m'.
Proof.
  intros Hb Hi Hl [Hlen Hw Hd Ht]. split; rewrite ?Hb, ?Hi, ?Hl; assumption.
Qed.

Lemma wf_calibrated m : wf m -> wf (calibrated m).
Proof. apply wf_statics_only; reflexivity. Qed.

Lemma wf_activated m : wf m -> wf (activated m).
Proof. apply wf_statics_only; reflexivity. Qed.

Lemma wf_with_calibration_record m : wf m -> wf (with_calibration_record m).
Proof.
  intros H. apply wf_put_slot; [apply wf_allocated; exact H | exact I].
Qed.

Lemma wf_with_epoch_record m : wf m -> wf (with_epoch_record m).
Proof.
  intros H. unfold with_epoch_record. cbv zeta.
  match goal with
  | |- wf {| statics := set_beginningEpoch _ (statics ?m'); env := _ |} =>
      apply (wf_statics_only m'); [reflexivity | reflexivity | reflexivity |]
  end.
  apply wf_put_slot; [apply wf_ticked, wf_allocated; exact H | exact I].
Qed.

Lemma wf_initialised outfile m : wf m -> wf (initialised outfile m).
Proof.
  intros H. unfold initialised. cbv zeta.
  match goal with
  | |- wf {| statics := statics ?m'; env := _ |} =>
      apply (wf_statics_only m'); [reflexivity | reflexivity | reflexivity |]
  end.
  apply wf_with_epoch_record, wf_with_calibration_record,
    wf_calibrated, wf_activated. exact H.
Qed.

Lemma initTelemetry_eq outfile m :
  wf m -> initTelemetry outfile m = Some (tt, initialised outfile m).
Proof.
  intros Hwf. unfold initTelemetry.
  unfold bind at 1, modify. fold (activated m).
  unfold bind at 1. rewrite calibrateTSC_eq.
  pose proof (wf_calibrated _ (wf_activated _ Hwf)) as Hwf1.
  set (m1 := calibrated (activated m)) in *.
  unfold bind at 1. rewrite newRecord_eq.
  unfold bind at 1, load.
  pose proof (in_buffer_cursor m1 Hwf1) as Hin1.
  assert (Hin1' : in_buffer (recordBufferIndex (statics m1)) (allocated m1))
    by exact Hin1.
  rewrite update_slot_twice_then by exact Hin1'.
  change (put_slot _ _ (allocated m1)) with (with_calibration_record m1).
  pose proof (wf_with_calibration_record _ Hwf1) as Hwf2.
  set (m2 := with_calibration_record m1) in *.
  unfold bind at 1. rewrite newRecord_eq.
  unfold bind at 1, READ_TSC.
  pose proof (in_buffer_cursor m2 Hwf2) as Hin2.
  match goal with
  | |- bind (update_slot ?i _) _ ?m3 = _ =>
      assert (Hin2' : in_buffer i m3) by exact Hin2
  end.
  rewrite update_slot_twice_then by exact Hin2'.
  unfold bind at 1. unfold bind at 1.
  rewrite slot_eq by (apply in_buffer_put; exact Hin2').
  rewrite get_put_slot by exact Hin2'.
  reflexivity.
Qed.

(** C6. [calibrateTSC] always returns.  It reads the monotonic clock and
    the cycle counter once each, sleeps for one second, reads both once
    more, and does nothing else to the outside; the factor it stores is the
    difference of the cycle readings divided by the difference of the clock
    readings in nanoseconds, times 1e9, in double arithmetic.  Nothing is
    checked on the way and no other static changes. *)
Theorem calibrateTSC_stores_ticks_per_second outfile m :
  let startTime := clock_feed (env m) (clock_reads (env m)) in
  let startTsc := to_ull (tsc_feed (env m) (tsc_reads (env m))) in
  let endTime := clock_feed (env m) (S (clock_reads (env m))) in
  let endTsc := to_ull (tsc_feed (env m) (S (tsc_reads (env m)))) in
  let cycleDelta := to_ull (endTsc - startTsc) in
  let wallNanosDelta :=
    to_ull ((tv_sec endTime - tv_sec startTime) * 1000000000
            + (tv_nsec endTime - tv_nsec startTime)) in
  exists m',
    calibrateTSC outfile m = Some (tt, m') /\
    trace (env m')
    = trace (env m) ++ [EClockGettime startTime; ERdtscp startTsc; ESleep 1;
                        EClockGettime endTime; ERdtscp endTsc] /\
    ticksPerSecond (statics m')
    = (double_of_Z cycleDelta / double_of_Z wallNanosDelta
       * 1000000000.0)%float /\
    statics m' = set_ticksPerSecond (ticksPerSecond (statics m')) (statics m).
Proof.
  cbv zeta. exists (calibrated m). split; [apply calibrateTSC_eq|].
  split; [|split; reflexivity].
  cbn. rewrite <- !app_assoc. reflexivity.
Qed.

(** On the example machine: 1000 cycles in one second. *)
Example calibrateTSC_sample :
  option_map (fun r => ticksPerSecond (statics (snd r)))
    (calibrateTSC 0%nat sample_machine) = Some 1000%float.
Proof. vm_compute. reflexivity. Qed.

(** ** The producers, switched off *)

(** C4. While [telemetry_active] is 0, each of the four producers returns
    at once and leaves the whole machine as it was: buffer, write cursor,
    interval counter, and the outside (no cycle counter reading either);
    [startInterval] returns 0. *)
Theorem inactive_producers_do_nothing m t id d :
  telemetry_active (statics m) = 0 ->
  takeTimeStamp t d m = Some (tt, m) /\
  startInterval t d m = Some (0, m) /\
  stopInterval t id d m = Some (tt, m) /\
  annotateInterval t id d m = Some (tt, m).
Proof.
  intros H.
  unfold takeTimeStamp, startInterval, stopInterval, annotateInterval.
  unfold bind, load, ret. rewrite H. cbn. auto.
Qed.

Lemma inactive_producers_do_nothing_witness :
  telemetry_active (statics sample_machine) = 0 /\
  takeTimeStamp 7 "mark" sample_machine = Some (tt, sample_machine) /\
  startInterval 7 "A" sample_machine = Some (0, sample_machine) /\
  stopInterval 7 0 "A" sample_machine = Some (tt, sample_machine) /\
  annotateInterval 7 0 "note" sample_machine = Some (tt, sample_machine).
Proof.
  split; [reflexivity|].
  pose proof (inactive_producers_do_nothing sample_machine 7 0) as H.
  destruct (H "mark"%string eq_refl) as (H1 & _).
  destruct (H "A"%string eq_refl) as (_ & H2 & H3 & _).
  destruct (H "note"%string eq_refl) as (_ & _ & _ & H4).
  auto.
Defined.

(** C9. The value [startInterval] returns while switched off is 0, and 0
    is what the first [startInterval] after [initTelemetry] returns in a
    freshly loaded process, whose counter starts at 0: the caller gets the
    same number in both cases. *)
Theorem startInterval_sentinel_is_first_id :
  (forall s w t d,
     startInterval t d {| statics := set_telemetry_active 0 s; env := w |}
     = Some (0, {| statics := set_telemetry_active 0 s; env := w |})) /\
  intervalIDCounter boot_statics = 0 /\
  (forall tsc clock outfile t d, exists m1 m2,
     initTelemetry outfile (boot tsc clock) = Some (tt, m1) /\
     telemetry_active (statics m1) = 1 /\
     startInterval t d m1 = Some (0, m2) /\
     intervalIDCounter (statics m2) = 1).
Proof.
  split; [reflexivity|]. split; [reflexivity|].
  intros tsc clock outfile t d.
  pose proof (wf_boot tsc clock) as Hwf.
  exists (initialised outfile (boot tsc clock)). eexists.
  split; [apply initTelemetry_eq; exact Hwf|].
  split; [reflexivity|].
  rewrite startInterval_active;
    [| apply wf_initialised; exact Hwf | cbn; discriminate].
  split; reflexivity.
Qed.

(** ** The serializer *)

Lemma emitted_app es es' m : emitted es' (emitted es m) = emitted (es ++ es') m.
Proof. unfold emitted. cbn. rewrite <- app_assoc. reflexivity. Qed.

Lemma emitted_nil m : emitted [] m = m.
Proof.
  destruct m as [s [f n c k t]]. unfold emitted. cbn.
  rewrite app_nil_r. reflexivity.
Qed.

Lemma fprintf_eq outfile format args m :
  fprintf outfile format args m
  = Some (tt, emitted [EFprintf outfile format args] m).
Proof. reflexivity. Qed.

Lemma wf_emitted es m : wf m -> wf (emitted es m).
Proof. apply wf_statics_only; reflexivity. Qed.

Lemma well_tagged_slot i m : wf m -> in_buffer i m -> well_tagged (get_slot i m).
Proof.
  intros [Hlen _ _ Ht] [Hi _]. unfold get_slot.
  rewrite Forall_lookup in Ht. apply (Ht (Z.to_nat i)).
  apply list_lookup_lookup_total_lt. lia.
Qed.

Lemma serialize_slot_eq outfile i m :
  wf m -> 0 <= i < RECORD_BUFFER_SIZE ->
  serialize_slot outfile i m
  = Some (tt, emitted (line outfile (beginningEpoch (statics m)) (get_slot i m)) m).
Proof.
  intros Hwf Hi.
  assert (Hin : in_buffer i m) by (split; [exact Hi | apply Hwf]).
  pose proof (well_tagged_slot i m Hwf Hin) as Htag.
  unfold serialize_slot, bind at 1. rewrite slot_eq by exact Hin.
  unfold line, well_tagged in *.
  destruct (get_slot i m) as [rt tid p]. cbn [recordType u threadID] in *.
  unfold bind at 1. rewrite fprintf_eq. unfold bind at 1, load.
  cbn [statics emitted].
  destruct rt, p; try contradiction;
    unfold bind, read_calibration, read_epoch, read_timeStamp,
      read_interval, read_annotation, ret; cbn [u];
    rewrite fprintf_eq, emitted_app; reflexivity.
Qed.

Lemma serialize_from_eq outfile n : forall i serializationEnd m,
  wf m -> 0 <= i -> serializationEnd <= RECORD_BUFFER_SIZE ->
  n = Z.to_nat (serializationEnd - i) ->
  serialize_from outfile i serializationEnd m
  = Some (tt, emitted (lines outfile m (seqZ i (serializationEnd - i))) m).
Proof.
  induction n as [|n IH]; intros i e m Hwf Hi He Hn; simp serialize_from.
  - destruct (Z_lt_dec i e) as [Hlt|Hge]; [lia|]. cbn.
    rewrite seqZ_nil by lia. unfold lines. cbn. rewrite emitted_nil. reflexivity.
  - destruct (Z_lt_dec i e) as [Hlt|Hge]; [|lia]. cbn.
    rewrite serialize_slot_eq by (try exact Hwf; lia). cbn.
    rewrite (IH (i + 1) e) by (try apply wf_emitted; try exact Hwf; lia).
    rewrite emitted_app. f_equal. f_equal. f_equal.
    rewrite (seqZ_cons i) by lia. unfold lines. cbn [flat_map].
    replace (Z.succ i) with (i + 1) by lia.
    replace (Z.pred (e - i)) with (e - (i + 1)) by lia.
    reflexivity.
Qed.

Lemma serializeTelemetryBufferRange_eq outfile a b m :
  wf m -> 0 <= a -> b <= RECORD_BUFFER_SIZE ->
  serializeTelemetryBufferRange outfile a b m
  = Some (tt, emitted (lines outfile m (seqZ a (b - a))) m).
Proof.
  intros. unfold serializeTelemetryBufferRange.
  apply (serialize_from_eq outfile (Z.to_nat (b - a))); auto.
Qed.

Lemma lines_app outfile m l l' :
  lines outfile m (l ++ l') = lines outfile m l ++ lines outfile m l'.
Proof. unfold lines. apply flat_map_app. Qed.

Lemma serializeTelemetryBuffer_wrapped outfile m :
  wf m ->
  recordBufferIndex (statics m) < lastSerializedIndex (statics m) ->
  serializeTelemetryBuffer outfile m
  = Some (tt, drained outfile
                (seqZ (lastSerializedIndex (statics m))
                      (RECORD_BUFFER_SIZE - lastSerializedIndex (statics m))
                 ++ seqZ 0 (recordBufferIndex (statics m))) m).
Proof.
  intros Hwf Hlt. pose proof Hwf as [_ Hw Hd _].
  unfold serializeTelemetryBuffer, bind at 1, load.
  unfold bind at 1. unfold bind at 1.
  replace (_ <? _) with true by (symmetry; apply Z.ltb_lt; exact Hlt).
  unfold bind at 1.
  rewrite serializeTelemetryBufferRange_eq by (try exact Hwf; lia).
  rewrite serializeTelemetryBufferRange_eq
    by (try apply wf_emitted; try exact Hwf; lia).
  rewrite emitted_app. unfold modify, drained. cbn [statics emitted env].
  rewrite lines_app, Z.sub_0_r. reflexivity.
Qed.

Lemma serializeTelemetryBuffer_straight outfile m :
  wf m ->
  lastSerializedIndex (statics m) <= recordBufferIndex (statics m) ->
  serializeTelemetryBuffer outfile m
  = Some (tt, drained outfile
                (seqZ (lastSerializedIndex (statics m))
                      (recordBufferIndex (statics m)
                       - lastSerializedIndex (statics m))) m).
Proof.
  intros Hwf Hle. pose proof Hwf as [_ Hw Hd _].
  unfold serializeTelemetryBuffer, bind at 1, load.
  unfold bind at 1. unfold bind at 1.
  replace (_ <? _) with false by (symmetry; apply Z.ltb_ge; exact Hle).
  rewrite serializeTelemetryBufferRange_eq by (try exact Hwf; lia).
  reflexivity.
Qed.

Lemma wf_drained outfile slots m : wf m -> wf (drained outfile slots m).
Proof.
  intros [Hlen Hw Hd Ht]. split; cbn; assumption.
Qed.

Lemma serializeTelemetryBuffer_eq outfile m :
  wf m ->
  serializeTelemetryBuffer outfile m
  = Some (tt, drained outfile (drain_slots m) m).
Proof.
  intros Hwf. unfold drain_slots. cbv zeta.
  destruct (Z.ltb_spec (recordBufferIndex (statics m))
              (lastSerializedIndex (statics m))) as [Hlt|Hge].
  - apply serializeTelemetryBuffer_wrapped; assumption.
  - apply serializeTelemetryBuffer_straight; assumption.
Qed.

Lemma drain_slots_in_buffer m i :
  wf m -> i ∈ drain_slots m -> 0 <= i < RECORD_BUFFER_SIZE.
Proof.
  intros [_ Hw Hd _]. unfold drain_slots. cbv zeta.
  destruct (Z.ltb_spec (recordBufferIndex (statics m))
              (lastSerializedIndex (statics m))) as [Hlt|Hge].
  - rewrite elem_of_app, !elem_of_seqZ. lia.
  - rewrite elem_of_seqZ. lia.
Qed.

(** C1. A drain pass on a well-formed machine returns.  With [start] the
    drain cursor and [end] the write cursor as read at its beginning, it
    prints the lines of the slots [start .. 9999] and then of [0 .. end-1],
    in this order, when [end < start], and of [start .. end-1] otherwise:
    one line per slot, the line the loop body prints for that slot, and
    nothing else.  It leaves the drain cursor at [end] and changes no other
    static. *)
Theorem serializeTelemetryBuffer_drains_in_order outfile m :
  wf m ->
  let start := lastSerializedIndex (statics m) in
  let end_ := recordBufferIndex (statics m) in
  let slots :=
    if end_ <? start
    then seqZ start (RECORD_BUFFER_SIZE - start) ++ seqZ 0 end_
    else seqZ start (end_ - start) in
  let printed :=
    flat_map (fun i => line outfile (beginningEpoch (statics m))
                         (get_slot i m)) slots in
  exists m',
    serializeTelemetryBuffer outfile m = Some (tt, m') /\
    Forall (fun i =>
              serialize_slot outfile i m
              = Some (tt, emitted (line outfile (beginningEpoch (statics m))
                                     (get_slot i m)) m)) slots /\
    trace (env m') = trace (env m) ++ printed /\
    lastSerializedIndex (statics m') = end_ /\
    m' = {| statics := set_lastSerializedIndex end_ (statics m);
            env := env (emitted printed m) |}.
Proof.
  intros Hwf start end_ slots printed.
  exists (drained outfile (drain_slots m) m).
  split; [apply serializeTelemetryBuffer_eq; exact Hwf|].
  split; [|repeat split].
  apply Forall_forall. intros i Hi.
  apply serialize_slot_eq; [exact Hwf|].
  apply (drain_slots_in_buffer m); assumption.
Qed.

Lemma serializeTelemetryBuffer_drains_in_order_witness :
  wf wrapped_machine /\
  exists m',
    serializeTelemetryBuffer 1%nat wrapped_machine = Some (tt, m') /\
    trace (env m')
    = trace (env wrapped_machine)
      ++ [EFprintf 1%nat fmt_threadID [arg_intptr 7];
          EFprintf 1%nat fmt_TimeStamp [arg_ull 3000; arg_str "late"];
          EFprintf 1%nat fmt_threadID [arg_intptr 8];
          EFprintf 1%nat fmt_IntervalAnnotation
            [arg_str " "; arg_str "note"; arg_uint 3];
          EFprintf 1%nat fmt_threadID [arg_intptr 0];
          EFprintf 1%nat fmt_Calibration [arg_double 1000%float];
          EFprintf 1%nat fmt_threadID [arg_intptr 0];
          EFprintf 1%nat fmt_Epoch [arg_ull 2017]] /\
    lastSerializedIndex (statics m') = 2.
Proof.
  assert (Hwf : wf wrapped_machine)
    by (apply wfb_sound; vm_compute; reflexivity).
  split; [exact Hwf|].
  destruct (serializeTelemetryBuffer_drains_in_order 1%nat wrapped_machine Hwf)
    as (m' & Hrun & _ & Htrace & Hend & _).
  exists m'. split; [exact Hrun|]. split; [|exact Hend].
  rewrite Htrace. vm_compute. reflexivity.
Defined.

(** ** Runs *)

Lemma kept_produced b r m : wf m -> well_tagged r -> kept m (produced b r m).
Proof.
  intros Hwf Hr. split; [apply wf_produced; assumption | |];
    destruct b; reflexivity.
Qed.

Lemma perform_active c m :
  wf m -> telemetry_active (statics m) <> 0 ->
  exists r m',
    perform c m = Some (r, m') /\ kept m m' /\
    if is_startInterval c
    then r = Some (intervalIDCounter (statics m)) /\
         intervalIDCounter (statics m')
         = to_uint (intervalIDCounter (statics m) + 1)
    else r = None /\
         intervalIDCounter (statics m') = intervalIDCounter (statics m).
Proof.
  intros Hwf Hact. destruct c as [t d|t d|t i d|t i d|f]; cbn [perform is_startInterval].
  - eexists _, _. unfold bind. rewrite takeTimeStamp_active by assumption.
    split; [reflexivity|]. split; [apply kept_produced; [assumption | exact I]|].
    split; reflexivity.
  - eexists _, _. unfold bind. rewrite startInterval_active by assumption.
    split; [reflexivity|]. split.
    + split; [apply wf_produced; [apply wf_bump; assumption | exact I] | |];
        reflexivity.
    + split; reflexivity.
  - eexists _, _. unfold bind. rewrite stopInterval_active by assumption.
    split; [reflexivity|]. split; [apply kept_produced; [assumption | exact I]|].
    split; reflexivity.
  - eexists _, _. unfold bind. rewrite annotateInterval_active by assumption.
    split; [reflexivity|]. split; [apply kept_produced; [assumption | exact I]|].
    split; reflexivity.
  - eexists _, _. unfold bind. rewrite serializeTelemetryBuffer_eq by assumption.
    split; [reflexivity|]. split; [|split; reflexivity].
    split; [apply wf_drained; assumption | |]; reflexivity.
Qed.

Lemma starts_nonneg cs : 0 <= starts cs.
Proof. induction cs as [|c cs IH]; cbn; [lia | destruct (is_startInterval c); lia]. Qed.

Lemma kept_trans m1 m2 m3 : kept m1 m2 -> kept m2 m3 -> kept m1 m3.
Proof.
  intros [_ Ha He] [Hwf Ha' He']. split; [exact Hwf | congruence | congruence].
Qed.

Lemma to_uint_succ c : to_uint (to_uint c + 1) = to_uint (c + 1).
Proof. unfold to_uint. rewrite Zplus_mod_idemp_l. reflexivity. Qed.

Lemma run_length cs : forall m rs m',
  run cs m = Some (rs, m') -> length rs = length cs.
Proof.
  induction cs as [|c cs IH]; intros m rs m' H; cbn in H.
  - injection H as <- _. reflexivity.
  - unfold bind, ret in H.
    destruct (perform c m) as [[r m1]|]; [|discriminate].
    destruct (run cs m1) as [[rs' m2]|] eqn:E; [|discriminate].
    injection H as <- _. cbn. f_equal. eapply IH. exact E.
Qed.

(** A run of an initialised machine returns; [c] is the number of
    identifiers handed out before it. *)
Lemma run_active cs : forall c m,
  wf m -> telemetry_active (statics m) <> 0 ->
  intervalIDCounter (statics m) = to_uint c ->
  0 <= c -> c + starts cs <= 2 ^ 32 ->
  exists rs m',
    run cs m = Some (rs, m') /\ kept m m' /\
    interval_ids rs = seqZ c (starts cs) /\
    intervalIDCounter (statics m') = to_uint (c + starts cs).
Proof.
  induction cs as [|call cs IH]; intros c m Hwf Hact Hc H0 Hn.
  - exists [], m. cbn. rewrite Z.add_0_r.
    split; [reflexivity|].
    split; [split; [exact Hwf | reflexivity | reflexivity]|].
    split; [reflexivity | exact Hc].
  - cbn [run starts] in *. pose proof (starts_nonneg cs) as Hs.
    destruct (perform_active call m Hwf Hact) as (r & m1 & Hrun & Hk & Hid).
    pose proof Hk as [Hwf1 Hact1 _].
    destruct (is_startInterval call); destruct Hid as [-> Hcnt].
    + destruct (IH (c + 1) m1) as (rs & m' & Hrun' & Hk' & Hids & Hcnt');
        try lia; try assumption; try congruence.
      { rewrite Hcnt, Hc. apply to_uint_succ. }
      exists (Some (intervalIDCounter (statics m)) :: rs), m'.
      unfold bind, ret. rewrite Hrun, Hrun'.
      split; [reflexivity|]. split; [eapply kept_trans; eassumption|].
      split.
      * unfold interval_ids in *. cbn. rewrite Hids, Hc.
        rewrite to_uint_small by lia.
        rewrite (seqZ_cons c) by lia. f_equal. f_equal; lia.
      * rewrite Hcnt'. f_equal. lia.
    + destruct (IH c m1) as (rs & m' & Hrun' & Hk' & Hids & Hcnt');
        try lia; try assumption; try congruence.
      exists (None :: rs), m'.
      unfold bind, ret. rewrite Hrun, Hrun'.
      split; [reflexivity|]. split; [eapply kept_trans; eassumption|].
      split; [exact Hids | exact Hcnt'].
Qed.

(** C5. In a run of calls of an initialised recorder (producers and drain
    passes in any order) that does not take the counter past [2^32], every
    call returns and the identifiers [startInterval] hands out are the
    consecutive values of the counter: each is larger than all those
    handed out before it, and no two are equal. *)
Theorem startInterval_ids_strictly_increase cs m :
  wf m -> telemetry_active (statics m) <> 0 ->
  0 <= intervalIDCounter (statics m) < 2 ^ 32 ->
  intervalIDCounter (statics m) + starts cs <= 2 ^ 32 ->
  exists rs m',
    run cs m = Some (rs, m') /\
    length rs = length cs /\
    interval_ids rs = seqZ (intervalIDCounter (statics m)) (starts cs) /\
    (forall i j a b, (i < j)%nat ->
       interval_ids rs !! i = Some a -> interval_ids rs !! j = Some b ->
       a < b) /\
    NoDup (interval_ids rs).
Proof.
  intros Hwf Hact H0 Hn.
  destruct (run_active cs (intervalIDCounter (statics m)) m)
    as (rs & m' & Hrun & _ & Hids & _); try assumption; try lia.
  { symmetry. apply to_uint_small. lia. }
  exists rs, m'. split; [exact Hrun|].
  split; [apply (run_length cs m rs m' Hrun)|].
  split; [exact Hids|]. split.
  - intros i j a b Hij. rewrite Hids, !lookup_seqZ. lia.
  - rewrite Hids. apply NoDup_seqZ.
Qed.

Lemma startInterval_ids_strictly_increase_witness :
  wf (initialised 1%nat sample_machine) /\
  exists rs m',
    run [call_startInterval 7 "A"; call_startInterval 8 "B";
         call_stopInterval 8 1 "B"; call_serializeTelemetryBuffer 1%nat;
         call_startInterval 7 "C"]
      (initialised 1%nat sample_machine) = Some (rs, m') /\
    interval_ids rs = [0; 1; 2].
Proof.
  assert (Hwf : wf (initialised 1%nat sample_machine))
    by apply wf_initialised, wf_boot.
  split; [exact Hwf|].
  destruct (startInterval_ids_strictly_increase
              [call_startInterval 7 "A"; call_startInterval 8 "B";
               call_stopInterval 8 1 "B"; call_serializeTelemetryBuffer 1%nat;
               call_startInterval 7 "C"]
              (initialised 1%nat sample_machine) Hwf)
    as (rs & m' & Hrun & _ & Hids & _).
  - cbn. discriminate.
  - cbn. lia.
  - cbn. lia.
  - exists rs, m'. split; [exact Hrun | exact Hids].
Defined.

Lemma run_kept cs : forall m,
  wf m -> telemetry_active (statics m) <> 0 ->
  exists rs m', run cs m = Some (rs, m') /\ kept m m'.
Proof.
  induction cs as [|c cs IH]; intros m Hwf Hact.
  - exists [], m. split; [reflexivity|]. split; [exact Hwf | |]; reflexivity.
  - destruct (perform_active c m Hwf Hact) as (r & m1 & Hrun & Hk & _).
    pose proof Hk as [Hwf1 Hact1 _].
    destruct (IH m1) as (rs & m' & Hrun' & Hk'); [exact Hwf1 | congruence|].
    exists (r :: rs), m'. cbn [run]. unfold bind, ret. rewrite Hrun, Hrun'.
    split; [reflexivity | eapply kept_trans; eassumption].
Qed.

(** ** Lines *)

Lemma to_long_to_ull z : to_long (to_ull z) = to_long z.
Proof.
  unfold to_long, to_ull. rewrite Zplus_mod_idemp_l. reflexivity.
Qed.

Lemma to_long_small z : - 2 ^ 63 <= z < 2 ^ 63 -> to_long z = z.
Proof. intros H. unfold to_long. rewrite Z.mod_small; lia. Qed.

Lemma stamped_line_pieces outfile beginning r :
  well_tagged r ->
  match recordType r with
  | TimeStamp | IntervalStart | IntervalEnd =>
      exists t,
        cycle_count r = Some t /\
        line_pieces (line outfile beginning r) !! 2%nat
        = Some (Conv "%15ld" (arg_ull (to_ull (t - beginning))))
  | _ => True
  end.
Proof.
  destruct r as [rt tid p]. unfold well_tagged. cbn [recordType u].
  destruct rt; try exact (fun _ => I); destruct p; try contradiction;
    intros _; eexists; (split; [reflexivity|]); reflexivity.
Qed.

Lemma next_slot_differs c :
  0 <= c < RECORD_BUFFER_SIZE ->
  0 <= (c + 1) mod 10000 < 10000 /\
  Z.to_nat c <> Z.to_nat ((c + 1) mod 10000).
Proof.
  unfold RECORD_BUFFER_SIZE. intros Hc.
  pose proof (Z.mod_pos_bound (c + 1) 10000 ltac:(lia)) as Hb.
  split; [exact Hb|].
  destruct (Z.eq_dec c 9999) as [->|Hne].
  - vm_compute. discriminate.
  - rewrite Z.mod_small by lia. lia.
Qed.

(** The two slots [initTelemetry] fills. *)
Lemma initialised_epoch_slot outfile m :
  wf m ->
  get_slot ((recordBufferIndex (statics m) + 1) mod 10000)
    (initialised outfile m)
  = {| recordType := Epoch;
       threadID :=
         threadID (get_slot ((recordBufferIndex (statics m) + 1) mod 10000) m);
       u := epoch
              {| epoch_time :=
                   to_ull (tsc_feed (env m) (S (S (tsc_reads (env m))))) |} |}.
Proof.
  intros Hwf. pose proof Hwf as [Hlen Hw _ _].
  destruct (next_slot_differs _ Hw) as [Hb Hne].
  unfold initialised, with_epoch_record, get_slot. cbn.
  rewrite to_uint_small by (unfold RECORD_BUFFER_SIZE in Hw; lia).
  unfold RECORD_BUFFER_SIZE.
  rewrite list_lookup_total_insert_eq
    by (rewrite length_insert, Hlen; unfold RECORD_BUFFER_SIZE; lia).
  rewrite list_lookup_total_insert_ne by exact Hne. reflexivity.
Qed.

Lemma initialised_calibration_slot outfile m :
  wf m ->
  get_slot (recordBufferIndex (statics m)) (initialised outfile m)
  = {| recordType := Calibration;
       threadID := threadID (get_slot (recordBufferIndex (statics m)) m);
       u := calibration
              {| calibration_ticksPerSecond :=
                   ticksPerSecond (statics (initialised outfile m)) |} |}.
Proof.
  intros Hwf. pose proof Hwf as [Hlen Hw _ _].
  destruct (next_slot_differs _ Hw) as [Hb Hne].
  unfold initialised, with_epoch_record, get_slot. cbn.
  rewrite to_uint_small by (unfold RECORD_BUFFER_SIZE in Hw; lia).
  unfold RECORD_BUFFER_SIZE.
  rewrite list_lookup_total_insert_ne by (intros Heq; apply Hne; auto).
  rewrite list_lookup_total_insert_eq
    by (rewrite Hlen; unfold RECORD_BUFFER_SIZE in *; lia).
  reflexivity.
Qed.

(** C7. [initTelemetry] sets [beginningEpoch] to the cycle count it stores
    in the Epoch record (its third reading of the counter), and no producer
    and no drain pass changes it afterwards.  Whatever calls follow, a
    drain pass prints for each TimeStamp, IntervalStart and IntervalEnd
    record it goes through, right after the thread field, the record's
    cycle count minus that value, modulo [2^64] and converted by [%15ld]:
    the difference itself whenever it fits a [long]. *)
Theorem drained_cycle_counts_are_relative_to_epoch outfile m0 cs :
  wf m0 ->
  let E := to_ull (tsc_feed (env m0) (S (S (tsc_reads (env m0))))) in
  exists m1 rs m2 m3,
    initTelemetry outfile m0 = Some (tt, m1) /\
    beginningEpoch (statics m1) = E /\
    get_slot ((recordBufferIndex (statics m0) + 1) mod 10000) m1
    = {| recordType := Epoch;
         threadID :=
           threadID (get_slot ((recordBufferIndex (statics m0) + 1) mod 10000)
                       m0);
         u := epoch {| epoch_time := E |} |} /\
    run cs m1 = Some (rs, m2) /\
    beginningEpoch (statics m2) = E /\
    serializeTelemetryBuffer outfile m2 = Some (tt, m3) /\
    beginningEpoch (statics m3) = E /\
    trace (env m3)
    = trace (env m2)
      ++ flat_map (fun i => line outfile E (get_slot i m2)) (drain_slots m2) /\
    forall i, i ∈ drain_slots m2 ->
      match recordType (get_slot i m2) with
      | TimeStamp | IntervalStart | IntervalEnd =>
          exists t,
            cycle_count (get_slot i m2) = Some t /\
            line_pieces (line outfile E (get_slot i m2)) !! 2%nat
            = Some (Conv "%15ld" (arg_ull (to_ull (t - E)))) /\
            printed_Z "%15ld" (arg_ull (to_ull (t - E)))
            = Some (to_long (t - E)) /\
            (- 2 ^ 63 <= t - E < 2 ^ 63 -> to_long (t - E) = t - E)
      | _ => True
      end.
Proof.
  intros Hwf E.
  pose proof (wf_initialised outfile m0 Hwf) as Hwf1.
  destruct (run_kept cs (initialised outfile m0) Hwf1) as (rs & m2 & Hrun & Hk).
  { cbn. discriminate. }
  destruct Hk as [Hwf2 _ HE2].
  exists (initialised outfile m0), rs, m2, (drained outfile (drain_slots m2) m2).
  split; [apply initTelemetry_eq; exact Hwf|].
  split; [reflexivity|].
  split; [apply initialised_epoch_slot; exact Hwf|].
  split; [exact Hrun|].
  split; [exact HE2|].
  split; [apply serializeTelemetryBuffer_eq; exact Hwf2|].
  split; [exact HE2|].
  split.
  { cbn. unfold lines. rewrite HE2. reflexivity. }
  intros i Hi.
  assert (Htag : well_tagged (get_slot i m2)).
  { apply well_tagged_slot; [exact Hwf2|].
    split; [apply (drain_slots_in_buffer m2); assumption | apply Hwf2]. }
  pose proof (stamped_line_pieces outfile E (get_slot i m2) Htag) as H.
  destruct (recordType (get_slot i m2)); try exact I;
    destruct H as (t & Ht & Hp); exists t;
    (split; [exact Ht|]); (split; [exact Hp|]);
    (split; [unfold printed_Z; cbn; rewrite to_long_to_ull; reflexivity
            | apply to_long_small]).
Qed.

Lemma drained_cycle_counts_are_relative_to_epoch_witness :
  wf sample_machine /\
  exists m1 rs m2 m3,
    initTelemetry 1%nat sample_machine = Some (tt, m1) /\
    run [call_takeTimeStamp 7 "mark"; call_startInterval 7 "A";
         call_stopInterval 7 0 "A"] m1 = Some (rs, m2) /\
    serializeTelemetryBuffer 1%nat m2 = Some (tt, m3) /\
    beginningEpoch (statics m3) = 2017.
Proof.
  split; [apply wf_boot|].
  destruct (drained_cycle_counts_are_relative_to_epoch 1%nat sample_machine
              [call_takeTimeStamp 7 "mark"; call_startInterval 7 "A";
               call_stopInterval 7 0 "A"] (wf_boot _ _))
    as (m1 & rs & m2 & m3 & Hinit & _ & _ & Hrun & _ & Hdrain & HE & _).
  exists m1, rs, m2, m3. auto.
Defined.

Lemma line_starts_with_threadID outfile beginning r :
  line_pieces (line outfile beginning r) !! 0%nat
  = Some (Conv "% 10x" (arg_intptr (threadID r))).
Proof. reflexivity. Qed.

Lemma annotation_line_pieces outfile beginning tid a :
  line_pieces
    (line outfile beginning
       {| recordType := IntervalAnnotation; threadID := tid;
          u := annotation a |})
  = [Conv "% 10x" (arg_intptr tid); Text " ";
     Conv "%15s" (arg_str " ");
     Text (String.append " ??? Annotation:     " dquote);
     Conv "%s" (arg_str (annotation_description a));
     Text (String.append dquote " (");
     Conv "%d" (arg_uint (annotation_intervalID a));
     Text (String.append ")" newline)].
Proof. reflexivity. Qed.

(** C8. [annotateInterval], let through, returns without reading the
    cycle counter and leaves in its slot a record of kind
    IntervalAnnotation that carries the subject, the identifier and the
    description, and no cycle count.  The line of every such record in a
    well-formed buffer is, in this order: the thread field, a time field of
    fifteen blanks, the annotation marker, the description in quotes and
    the interval identifier.  The line of a record of any kind starts with
    the thread field. *)
Theorem annotation_record_and_line :
  (forall subject id d m,
     wf m -> telemetry_active (statics m) <> 0 ->
     exists m',
       annotateInterval subject id d m = Some (tt, m') /\
       env m' = env m /\
       get_slot (recordBufferIndex (statics m)) m'
       = {| recordType := IntervalAnnotation; threadID := subject;
            u := annotation {| annotation_intervalID := to_uint id;
                               annotation_description := d |} |} /\
       cycle_count (get_slot (recordBufferIndex (statics m)) m') = None) /\
  (forall outfile i m,
     wf m -> 0 <= i < RECORD_BUFFER_SIZE ->
     recordType (get_slot i m) = IntervalAnnotation ->
     exists a,
       u (get_slot i m) = annotation a /\
       serialize_slot outfile i m
       = Some (tt, emitted (line outfile (beginningEpoch (statics m))
                              (get_slot i m)) m) /\
       line_pieces (line outfile (beginningEpoch (statics m)) (get_slot i m))
       = [Conv "% 10x" (arg_intptr (threadID (get_slot i m))); Text " ";
          Conv "%15s" (arg_str " ");
          Text (String.append " ??? Annotation:     " dquote);
          Conv "%s" (arg_str (annotation_description a));
          Text (String.append dquote " (");
          Conv "%d" (arg_uint (annotation_intervalID a));
          Text (String.append ")" newline)]) /\
  printed_s "%15s" (arg_str " ") = Some (blanks 15) /\
  (forall outfile beginning r,
     line_pieces (line outfile beginning r) !! 0%nat
     = Some (Conv "% 10x" (arg_intptr (threadID r)))).
Proof.
  split; [|split; [|split; [reflexivity | apply line_starts_with_threadID]]].
  - intros subject id d m Hwf Hact. eexists.
    split; [apply annotateInterval_active; assumption|].
    split; [reflexivity|].
    assert (Hget : get_slot (recordBufferIndex (statics m))
                     (produced false
                        {| recordType := IntervalAnnotation; threadID := subject;
                           u := annotation
                                  {| annotation_intervalID := to_uint id;
                                     annotation_description := d |} |} m)
                   = {| recordType := IntervalAnnotation; threadID := subject;
                        u := annotation
                               {| annotation_intervalID := to_uint id;
                                  annotation_description := d |} |}).
    { unfold produced. apply get_put_slot.
      apply (in_buffer_cursor m Hwf). }
    rewrite Hget. split; reflexivity.
  - intros outfile i m Hwf Hi Hrt.
    assert (Hin : in_buffer i m) by (split; [exact Hi | apply Hwf]).
    pose proof (well_tagged_slot i m Hwf Hin) as Htag.
    rewrite serialize_slot_eq by assumption.
    destruct (get_slot i m) as [rt tid p]. cbn [recordType] in Hrt. subst rt.
    unfold well_tagged in Htag. cbn [recordType u] in Htag.
    destruct p; try contradiction. exists a.
    split; [reflexivity|]. split; [reflexivity|].
    apply annotation_line_pieces.
Qed.

Lemma annotation_record_and_line_witness :
  wf (initialised 1%nat sample_machine) /\
  telemetry_active (statics (initialised 1%nat sample_machine)) <> 0 /\
  exists m',
    annotateInterval 7 0 "note" (initialised 1%nat sample_machine)
    = Some (tt, m') /\
    env m' = env (initialised 1%nat sample_machine) /\
    cycle_count (get_slot 2 m') = None.
Proof.
  assert (Hwf : wf (initialised 1%nat sample_machine))
    by apply wf_initialised, wf_boot.
  assert (Hact : telemetry_active (statics (initialised 1%nat sample_machine))
                 <> 0) by (cbn; discriminate).
  split; [exact Hwf|]. split; [exact Hact|].
  destruct annotation_record_and_line as (H & _).
  destruct (H 7 0 "note"%string _ Hwf Hact) as (m' & Hrun & Henv & _ & Hcc).
  exists m'. split; [exact Hrun|]. split; [exact Henv | exact Hcc].
Defined.

Lemma boot_threadID tsc clock i : threadID (get_slot i (boot tsc clock)) = 0.
Proof.
  unfold get_slot. cbn [boot statics boot_statics recordBuffer].
  rewrite list_lookup_total_alt.
  destruct (replicate _ _ !! Z.to_nat i) as [r|] eqn:E; [|reflexivity].
  apply lookup_replicate in E as [-> _]. reflexivity.
Qed.

(** ** Producers in parallel *)

(** A call that runs its three steps with no step of another thread in
    between does what [newRecord] does alone. *)
Lemma solo_call_grants_cursor t s :
  Conc.threads s !! t = Some Conc.at_load_recordIndex ->
  Conc.exec [t; t; t] s
  = {| Conc.cursor := to_uint (Conc.cursor s + 1) mod RECORD_BUFFER_SIZE;
       Conc.threads := Conc.threads s;
       Conc.grants := (t, Conc.cursor s) :: Conc.grants s |}.
Proof.
  intros Ht. pose proof (lookup_lt_Some _ _ _ Ht) as Hlt.
  destruct s as [c ths g]. cbn in *.
  unfold Conc.step at 3. cbn. rewrite Ht.
  unfold Conc.step at 2, Conc.move. cbn.
  rewrite list_lookup_insert_eq by exact Hlt.
  unfold Conc.step, Conc.move. cbn.
  rewrite list_lookup_insert_eq by (rewrite length_insert; exact Hlt).
  rewrite Z.eqb_refl, !list_insert_insert_eq.
  rewrite list_insert_id by exact Ht. reflexivity.
Qed.

(** C3, on the code.  Every thread can take its next step in every state
    ([Conc.step] is a function), but a call may be handed the slot that the
    call before it was handed: under [Conc.stalled_schedule] the calls
    return slots 0, 1, ..., 9999 to thread 1, then slot 0 to thread 0, then
    slot 0 again to thread 1.  With the next index computed from the value
    read first, the same schedule ends with slot 0 for thread 0 and slot 1
    for thread 1. *)
Theorem stalled_newRecord_grants_slot_twice :
  let s := Conc.exec Conc.stalled_schedule (Conc.init 2) in
  let s' := Conc.exec_as_specified Conc.stalled_schedule (Conc.init 2) in
  length (Conc.grants s) = Z.to_nat 10002 /\
  take 2 (Conc.grants s) = [(1%nat, 0); (0%nat, 0)] /\
  rev (drop 2 (Conc.grants s)) = (fun i => (1%nat, i)) <$> seqZ 0 10000 /\
  Conc.cursor s = 1 /\
  take 2 (Conc.grants s') = [(1%nat, 1); (0%nat, 0)] /\
  drop 2 (Conc.grants s') = drop 2 (Conc.grants s) /\
  Conc.cursor s' = 2.
Proof. vm_compute. repeat split; reflexivity. Qed.

(** C2, on the code.  Not every allocation leaves the write cursor one
    past the index it returns.  [Conc.stalled_until_exchange] is
    [Conc.stalled_schedule] cut before the compare-and-exchange of thread
    0.  At its end thread 0 holds [recordIndex = 0], read before the 9999
    calls of thread 1, and [newBufferIndex = 0], computed from its second
    read of the cursor, 9999; the cursor is 0 again after one more call of
    thread 1.  The exchange of thread 0 succeeds: its call returns slot 0,
    the value of the cursor, and leaves the cursor at 0, not at
    [(0 + 1) mod 10000].  With the next index computed from the value read
    first, the same call returns slot 0 and leaves the cursor at 1. *)
Theorem stalled_newRecord_leaves_cursor_in_place :
  let s := Conc.exec Conc.stalled_until_exchange (Conc.init 2) in
  let s' := Conc.step 0 s in
  let t := Conc.exec_as_specified Conc.stalled_until_exchange (Conc.init 2) in
  let t' := Conc.step_as_specified 0 t in
  Conc.stalled_schedule
  = Conc.stalled_until_exchange ++ [0%nat] ++ replicate 3 1%nat /\
  Conc.cursor s = 0 /\
  Conc.threads s !! 0%nat = Some (Conc.at_compare_exchange 0 0) /\
  Conc.grants s' = (0%nat, Conc.cursor s) :: Conc.grants s /\
  Conc.cursor s' = 0 /\
  Conc.cursor s' <> (Conc.cursor s + 1) mod 10000 /\
  Conc.cursor t = 0 /\
  Conc.threads t !! 0%nat = Some (Conc.at_compare_exchange 0 1) /\
  Conc.grants t' = (0%nat, Conc.cursor t) :: Conc.grants t /\
  Conc.cursor t' = (Conc.cursor t + 1) mod 10000.
Proof.
  split.
  - unfold Conc.stalled_schedule, Conc.stalled_until_exchange.
    rewrite <- !app_assoc. reflexivity.
  - vm_compute. repeat split; first [reflexivity | discriminate].
Qed.

(** * More of the recorder *)

(** ** Runs of producers *)

Lemma perform_producer c m :
  wf m -> telemetry_active (statics m) <> 0 -> is_producer c = true ->
  perform c m = Some (result_of c m, after_producer c m).
Proof.
  intros Hwf Hact Hp. destruct c as [t d|t d|t i d|t i d|f];
    try discriminate; cbn [perform]; unfold bind, ret.
  - rewrite takeTimeStamp_active by assumption. reflexivity.
  - rewrite startInterval_active by assumption. reflexivity.
  - rewrite stopInterval_active by assumption. reflexivity.
  - rewrite annotateInterval_active by assumption. reflexivity.
Qed.

Lemma well_tagged_record_of c m : well_tagged (record_of c m).
Proof. destruct c; exact I. Qed.

Lemma wf_after_producer c m : wf m -> wf (after_producer c m).
Proof.
  intros Hwf. unfold after_producer. apply wf_produced.
  - destruct (is_startInterval c); [apply wf_bump|]; exact Hwf.
  - apply well_tagged_record_of.
Qed.

Lemma after_producer_statics c m :
  recordBufferIndex (statics (after_producer c m))
  = to_uint (recordBufferIndex (statics m) + 1) mod RECORD_BUFFER_SIZE /\
  lastSerializedIndex (statics (after_producer c m))
  = lastSerializedIndex (statics m) /\
  beginningEpoch (statics (after_producer c m)) = beginningEpoch (statics m) /\
  telemetry_active (statics (after_producer c m))
  = telemetry_active (statics m).
Proof.
  unfold after_producer, produced.
  destruct (stamps c), (is_startInterval c); repeat split.
Qed.

Lemma after_producer_cursor c m :
  wf m ->
  recordBufferIndex (statics (after_producer c m))
  = (recordBufferIndex (statics m) + 1) mod 10000.
Proof.
  intros [_ Hw _ _]. destruct (after_producer_statics c m) as [-> _].
  unfold RECORD_BUFFER_SIZE in *. rewrite to_uint_small by lia. reflexivity.
Qed.

Lemma after_producer_slot c m :
  wf m ->
  get_slot (recordBufferIndex (statics m)) (after_producer c m) = record_of c m.
Proof.
  intros Hwf. unfold after_producer, produced.
  destruct (is_startInterval c), (stamps c);
    (apply get_put_slot; apply (in_buffer_cursor m Hwf)).
Qed.

Lemma after_producer_other c m i :
  0 <= i -> i <> recordBufferIndex (statics m) -> 
  0 <= recordBufferIndex (statics m) ->
  get_slot i (after_producer c m) = get_slot i m.
Proof.
  intros Hi Hne Hc. unfold after_producer, produced, get_slot, put_slot.
  destruct (is_startInterval c), (stamps c); cbn;
    apply list_lookup_total_insert_ne; lia.
Qed.

Lemma after_producers_kept cs : forall m,
  wf m ->
  wf (after_producers cs m) /\
  recordBufferIndex (statics (after_producers cs m))
  = (recordBufferIndex (statics m) + Z.of_nat (length cs)) mod 10000 /\
  lastSerializedIndex (statics (after_producers cs m))
  = lastSerializedIndex (statics m) /\
  beginningEpoch (statics (after_producers cs m)) = beginningEpoch (statics m) /\
  telemetry_active (statics (after_producers cs m))
  = telemetry_active (statics m).
Proof.
  induction cs as [|c cs IH]; intros m Hwf.
  - cbn. pose proof Hwf as [_ Hw _ _]. unfold RECORD_BUFFER_SIZE in Hw.
    rewrite Z.add_0_r, Z.mod_small by lia. auto.
  - cbn [after_producers length].
    destruct (IH (after_producer c m) (wf_after_producer c m Hwf))
      as (Hwf' & Hc & Hl & He & Ha).
    destruct (after_producer_statics c m) as (_ & Hl1 & He1 & Ha1).
    rewrite Hc, Hl, He, Ha, Hl1, He1, Ha1, after_producer_cursor by exact Hwf.
    split; [exact Hwf'|]. split; [|auto].
    rewrite Zplus_mod_idemp_l. f_equal. lia.
Qed.

Lemma run_producers cs : forall m,
  wf m -> telemetry_active (statics m) <> 0 ->
  forallb is_producer cs = true ->
  exists rs, run cs m = Some (rs, after_producers cs m).
Proof.
  induction cs as [|c cs IH]; intros m Hwf Hact Hp.
  - exists []. reflexivity.
  - cbn in Hp. apply andb_true_iff in Hp as [Hc Hp].
    destruct (IH (after_producer c m)) as [rs Hrun];
      [apply wf_after_producer; exact Hwf | | exact Hp |].
    { destruct (after_producer_statics c m) as (_ & _ & _ & ->). exact Hact. }
    exists (result_of c m :: rs). cbn [run after_producers]. unfold bind, ret.
    rewrite perform_producer, Hrun by assumption. reflexivity.
Qed.

Lemma written_cons c cs m :
  wf m -> telemetry_active (statics m) <> 0 -> is_producer c = true ->
  written (c :: cs) m = record_of c m :: written cs (after_producer c m).
Proof.
  intros Hwf Hact Hp. cbn [written].
  rewrite perform_producer, after_producer_slot by assumption. reflexivity.
Qed.

Lemma written_length cs : forall m,
  wf m -> telemetry_active (statics m) <> 0 ->
  forallb is_producer cs = true ->
  length (written cs m) = length cs.
Proof.
  induction cs as [|c cs IH]; intros m Hwf Hact Hp; [reflexivity|].
  cbn in Hp. apply andb_true_iff in Hp as [Hc Hp].
  rewrite written_cons by assumption. cbn. f_equal. apply IH.
  - apply wf_after_producer; exact Hwf.
  - destruct (after_producer_statics c m) as (_ & _ & _ & ->). exact Hact.
  - exact Hp.
Qed.

(** A slot that none of the calls of a run is handed keeps its record. *)
Lemma after_producers_other cs : forall m i,
  wf m -> 0 <= i ->
  (forall j, 0 <= j < Z.of_nat (length cs) ->
     i <> (recordBufferIndex (statics m) + j) mod 10000) ->
  get_slot i (after_producers cs m) = get_slot i m.
Proof.
  induction cs as [|c cs IH]; intros m i Hwf Hi Hne; [reflexivity|].
  cbn [after_producers]. pose proof Hwf as [_ Hw _ _].
  unfold RECORD_BUFFER_SIZE in Hw.
  rewrite IH.
  - apply after_producer_other; [exact Hi | | lia].
    specialize (Hne 0). rewrite Z.add_0_r, Z.mod_small in Hne by lia.
    apply Hne. cbn [length]. lia.
  - apply wf_after_producer; exact Hwf.
  - exact Hi.
  - intros j Hj. rewrite after_producer_cursor by exact Hwf.
    rewrite Zplus_mod_idemp_l.
    replace (recordBufferIndex (statics m) + 1 + j)
      with (recordBufferIndex (statics m) + (j + 1)) by lia.
    apply Hne. cbn [length]. lia.
Qed.

(** The record of call number [j] is still in its slot at the end of the
    run when fewer than 10000 calls came after it. *)
Lemma after_producers_recent cs : forall m j,
  wf m -> telemetry_active (statics m) <> 0 ->
  forallb is_producer cs = true ->
  (j < length cs)%nat -> Z.of_nat (length cs) - Z.of_nat j <= 10000 ->
  written cs m !! j
  = Some (get_slot ((recordBufferIndex (statics m) + Z.of_nat j) mod 10000)
            (after_producers cs m)).
Proof.
  induction cs as [|c cs IH]; intros m j Hwf Hact Hp Hj Hlast;
    [cbn in Hj; lia|].
  cbn in Hp. apply andb_true_iff in Hp as [Hc Hp].
  pose proof Hwf as [_ Hw _ _]. unfold RECORD_BUFFER_SIZE in Hw.
  pose proof (wf_after_producer c m Hwf) as Hwf1.
  assert (Hact1 : telemetry_active (statics (after_producer c m)) <> 0).
  { destruct (after_producer_statics c m) as (_ & _ & _ & ->). exact Hact. }
  rewrite written_cons by assumption. cbn [after_producers length] in *.
  rewrite lookup_cons. destruct j as [|j].
  - f_equal. rewrite Z.add_0_r, Z.mod_small by lia.
    rewrite after_producers_other; [| exact Hwf1 | lia |].
    + symmetry. apply after_producer_slot. exact Hwf.
    + intros k Hk. rewrite after_producer_cursor by exact Hwf.
      rewrite Zplus_mod_idemp_l.
      destruct (Z_lt_dec (recordBufferIndex (statics m) + 1 + k) 10000).
      * rewrite Z.mod_small by lia. lia.
      * replace (recordBufferIndex (statics m) + 1 + k)
          with (recordBufferIndex (statics m) + 1 + k - 10000 + 1 * 10000)
          by lia.
        rewrite Z.mod_add, Z.mod_small by lia. lia.
  - rewrite (IH (after_producer c m) j) by (try assumption; lia).
    f_equal. f_equal. rewrite after_producer_cursor by exact Hwf.
    rewrite Zplus_mod_idemp_l. f_equal. lia.
Qed.

Lemma drain_slots_since m c0 k :
  0 <= c0 < 10000 -> 0 <= k < 10000 ->
  lastSerializedIndex (statics m) = c0 ->
  recordBufferIndex (statics m) = (c0 + k) mod 10000 ->
  drain_slots m = (fun j => (c0 + j) mod 10000) <$> seqZ 0 k.
Proof.
  intros Hc Hk Hs He. unfold drain_slots, RECORD_BUFFER_SIZE. rewrite Hs, He.
  destruct (Z_lt_dec (c0 + k) 10000) as [Hlt|Hge].
  - rewrite Z.mod_small by lia.
    replace (c0 + k <? c0) with false by (symmetry; apply Z.ltb_ge; lia).
    replace (c0 + k - c0) with k by lia.
    rewrite <- (Z.add_0_r c0) at 1. rewrite <- fmap_add_seqZ.
    apply list_fmap_ext. intros i j Hj.
    apply lookup_seqZ in Hj as [-> Hj]. rewrite Z.mod_small; lia.
  - replace ((c0 + k) mod 10000) with (c0 + k - 10000).
    2:{ replace (c0 + k) with (c0 + k - 10000 + 1 * 10000) at 2 by lia.
        rewrite Z.mod_add, Z.mod_small; lia. }
    replace (c0 + k - 10000 <? c0) with true by (symmetry; apply Z.ltb_lt; lia).
    replace k with ((10000 - c0) + (c0 + k - 10000)) at 2 by lia.
    rewrite seqZ_app, fmap_app by lia. f_equal.
    + rewrite <- (Z.add_0_r c0) at 1. rewrite <- fmap_add_seqZ.
      apply list_fmap_ext. intros i j Hj.
      apply lookup_seqZ in Hj as [-> Hj]. rewrite Z.mod_small; lia.
    + rewrite Z.add_0_l.
      replace (10000 - c0) with ((10000 - c0) + 0) at 1 by lia.
      rewrite <- (fmap_add_seqZ (10000 - c0) 0), <- list_fmap_compose.
      rewrite <- (list_fmap_id (seqZ 0 (c0 + k - 10000))) at 1.
      apply list_fmap_ext. intros i j Hj.
      apply lookup_seqZ in Hj as [-> Hj]. cbn.
      replace (c0 + (10000 - c0 + (0 + Z.of_nat i)))
        with (Z.of_nat i + 1 * 10000) by lia.
      rewrite Z.mod_add, Z.mod_small; lia.
Qed.

Lemma recent_records cs m :
  wf m -> telemetry_active (statics m) <> 0 ->
  forallb is_producer cs = true ->
  (fun j => get_slot ((recordBufferIndex (statics m) + j) mod 10000)
              (after_producers cs m))
  <$> seqZ 0 (Z.of_nat (length cs) mod 10000)
  = drop (Z.to_nat (Z.of_nat (length cs) - Z.of_nat (length cs) mod 10000))
      (written cs m).
Proof.
  intros Hwf Hact Hp. set (k := Z.of_nat (length cs)).
  pose proof (Z.mod_pos_bound k 10000 ltac:(lia)) as Hr.
  pose proof (Z.mod_le k 10000 ltac:(lia) ltac:(lia)) as Hle.
  pose proof (Z_div_mod_eq_full k 10000) as Hdiv.
  apply list_eq. intros n.
  rewrite list_lookup_fmap, lookup_drop.
  destruct (Z_lt_dec (Z.of_nat n) (k mod 10000)) as [Hn|Hn].
  - rewrite lookup_seqZ_lt by exact Hn. cbn [fmap option_fmap option_map].
    rewrite (after_producers_recent cs m) by (try assumption; lia).
    f_equal. f_equal. rewrite Nat2Z.inj_add, Z2Nat.id by lia.
    fold k. replace (recordBufferIndex (statics m) + (k - k mod 10000 + Z.of_nat n))
      with (recordBufferIndex (statics m) + (0 + Z.of_nat n) + (k / 10000) * 10000)
      by lia.
    rewrite Z.mod_add by lia. reflexivity.
  - rewrite lookup_seqZ_ge by lia. symmetry. apply lookup_ge_None.
    rewrite written_length by assumption. lia.
Qed.

Lemma flat_map_fmap {A B C} (f : A -> B) (g : B -> list C) (l : list A) :
  flat_map g (f <$> l) = flat_map (fun x => g (f x)) l.
Proof. induction l as [|x l IH]; cbn; [reflexivity | rewrite IH; reflexivity]. Qed.

(** What the drain pass after a run of producers prints. *)
Lemma drain_after_producers outfile cs m :
  wf m -> telemetry_active (statics m) <> 0 ->
  lastSerializedIndex (statics m) = recordBufferIndex (statics m) ->
  forallb is_producer cs = true ->
  lines outfile (after_producers cs m) (drain_slots (after_producers cs m))
  = flat_map (line outfile (beginningEpoch (statics m)))
      (drop (Z.to_nat (Z.of_nat (length cs) - Z.of_nat (length cs) mod 10000))
         (written cs m)).
Proof.
  intros Hwf Hact Hdr Hp. pose proof Hwf as [_ Hw _ _].
  unfold RECORD_BUFFER_SIZE in Hw.
  destruct (after_producers_kept cs m Hwf) as (Hwf1 & Hc & Hl & He & _).
  rewrite <- recent_records by assumption.
  rewrite (drain_slots_since _ (recordBufferIndex (statics m))
             (Z.of_nat (length cs) mod 10000)).
  - unfold lines. rewrite He, !flat_map_fmap. reflexivity.
  - exact Hw.
  - apply Z.mod_pos_bound. lia.
  - rewrite Hl. exact Hdr.
  - rewrite Hc, Zplus_mod_idemp_r. reflexivity.
Qed.

(** X1. After a drain pass, let [k] producers be called and then the
    serializer.  The run returns, every call leaves its record in a slot,
    and the drain pass prints the lines of the records of the last
    [k mod 10000] calls, in call order, and nothing else: all of them when
    [k < 10000], none when [k] is a multiple of 10000.  The machine is
    then again one that a drain pass has just left, so the same holds of
    the calls that follow. *)
Theorem drain_prints_the_last_records outfile cs m :
  wf m -> telemetry_active (statics m) <> 0 ->
  lastSerializedIndex (statics m) = recordBufferIndex (statics m) ->
  forallb is_producer cs = true ->
  let k := Z.of_nat (length cs) in
  exists rs m1 m2,
    run cs m = Some (rs, m1) /\
    length (written cs m) = length cs /\
    serializeTelemetryBuffer outfile m1 = Some (tt, m2) /\
    trace (env m2)
    = trace (env m1)
      ++ flat_map (line outfile (beginningEpoch (statics m)))
           (drop (Z.to_nat (k - k mod 10000)) (written cs m)) /\
    (k < 10000 ->
     trace (env m2)
     = trace (env m1)
       ++ flat_map (line outfile (beginningEpoch (statics m))) (written cs m)) /\
    (k mod 10000 = 0 -> trace (env m2) = trace (env m1)) /\
    wf m2 /\
    telemetry_active (statics m2) = telemetry_active (statics m) /\
    lastSerializedIndex (statics m2) = recordBufferIndex (statics m2).
Proof.
  intros Hwf Hact Hdr Hp k.
  destruct (run_producers cs m Hwf Hact Hp) as [rs Hrun].
  destruct (after_producers_kept cs m Hwf) as (Hwf1 & _ & _ & _ & Hact1).
  pose proof (written_length cs m Hwf Hact Hp) as Hlen.
  assert (Htrace :
    trace (env (drained outfile (drain_slots (after_producers cs m))
                  (after_producers cs m)))
    = trace (env (after_producers cs m))
      ++ flat_map (line outfile (beginningEpoch (statics m)))
           (drop (Z.to_nat (k - k mod 10000)) (written cs m))).
  { cbn [drained env emitted trace].
    rewrite drain_after_producers by assumption. reflexivity. }
  eexists rs, _, _. split; [exact Hrun|]. split; [exact Hlen|].
  split; [apply serializeTelemetryBuffer_eq; exact Hwf1|].
  split; [exact Htrace|]. split; [|split; [|split; [|split]]].
  - intros Hk. rewrite Htrace, Z.mod_small by lia.
    rewrite Z.sub_diag. reflexivity.
  - intros Hk. rewrite Htrace, Hk, Z.sub_0_r. subst k.
    rewrite Nat2Z.id, <- Hlen, drop_all. cbn. apply app_nil_r.
  - apply wf_drained. exact Hwf1.
  - exact Hact1.
  - reflexivity.
Qed.

Lemma drained_sample_ready :
  wf drained_sample /\
  telemetry_active (statics drained_sample) <> 0 /\
  lastSerializedIndex (statics drained_sample)
  = recordBufferIndex (statics drained_sample).
Proof.
  split; [apply wf_drained, wf_initialised, wf_boot|].
  split; [cbn; discriminate | reflexivity].
Qed.

Lemma drain_prints_the_last_records_witness :
  wf drained_sample /\
  exists rs m1 m2,
    run [call_takeTimeStamp 7 "mark"; call_startInterval 8 "A";
         call_annotateInterval 8 0 "note"] drained_sample = Some (rs, m1) /\
    serializeTelemetryBuffer 1%nat m1 = Some (tt, m2) /\
    trace (env m2)
    = trace (env m1)
      ++ [EFprintf 1%nat fmt_threadID [arg_intptr 7];
          EFprintf 1%nat fmt_TimeStamp [arg_ull 1000; arg_str "mark"];
          EFprintf 1%nat fmt_threadID [arg_intptr 8];
          EFprintf 1%nat fmt_IntervalStart
            [arg_ull 2000; arg_str "A"; arg_uint 0];
          EFprintf 1%nat fmt_threadID [arg_intptr 8];
          EFprintf 1%nat fmt_IntervalAnnotation
            [arg_str " "; arg_str "note"; arg_uint 0]].
Proof.
  destruct drained_sample_ready as (Hwf & Hact & Hdr).
  split; [exact Hwf|].
  destruct (drain_prints_the_last_records 1%nat
              [call_takeTimeStamp 7 "mark"; call_startInterval 8 "A";
               call_annotateInterval 8 0 "note"]
              drained_sample Hwf Hact Hdr eq_refl)
    as (rs & m1 & m2 & Hrun & _ & Hdrain & _ & Hall & _).
  exists rs, m1, m2. split; [exact Hrun|]. split; [exact Hdrain|].
  rewrite Hall by (cbn; lia). f_equal.
Defined.

Lemma producer_then_drain outfile c m :
  wf m -> telemetry_active (statics m) <> 0 ->
  lastSerializedIndex (statics m) = recordBufferIndex (statics m) ->
  is_producer c = true ->
  perform c m = Some (result_of c m, after_producer c m) /\
  serializeTelemetryBuffer outfile (after_producer c m)
  = Some (tt, drained outfile (drain_slots (after_producer c m))
                (after_producer c m)) /\
  trace (env (drained outfile (drain_slots (after_producer c m))
                (after_producer c m)))
  = trace (env (after_producer c m))
    ++ line outfile (beginningEpoch (statics m)) (record_of c m).
Proof.
  intros Hwf Hact Hdr Hp.
  pose proof (wf_after_producer c m Hwf) as Hwf1.
  split; [apply perform_producer; assumption|].
  split; [apply serializeTelemetryBuffer_eq; exact Hwf1|].
  cbn [drained env emitted trace]. f_equal.
  change (after_producer c m) with (after_producers [c] m).
  rewrite (drain_after_producers outfile [c] m Hwf Hact Hdr)
    by (cbn; rewrite Hp; reflexivity).
  rewrite written_cons by assumption. cbn [length written].
  change (Z.to_nat _) with 0%nat. cbn [drop flat_map]. apply app_nil_r.
Qed.

(** X2. One producer call after a drain pass, then the serializer: the
    pass prints one line, made of what the caller passed in.  The cycle
    count is the reading taken by the call minus [beginningEpoch]; the
    identifier of [startInterval] is the one it returned; the identifier
    of [stopInterval] and [annotateInterval] is the argument, converted to
    [unsigned int]. *)
Theorem producer_then_drain_prints_its_line outfile c m :
  wf m -> telemetry_active (statics m) <> 0 ->
  lastSerializedIndex (statics m) = recordBufferIndex (statics m) ->
  is_producer c = true ->
  let cycles := to_ull (to_ull (tsc_feed (env m) (tsc_reads (env m)))
                        - beginningEpoch (statics m)) in
  exists r m1 m2,
    perform c m = Some (r, m1) /\
    r = (if is_startInterval c
         then Some (intervalIDCounter (statics m)) else None) /\
    serializeTelemetryBuffer outfile m1 = Some (tt, m2) /\
    trace (env m2)
    = trace (env m1)
      ++ match c with
         | call_takeTimeStamp t d =>
             [EFprintf outfile fmt_threadID [arg_intptr t];
              EFprintf outfile fmt_TimeStamp [arg_ull cycles; arg_str d]]
         | call_startInterval t d =>
             [EFprintf outfile fmt_threadID [arg_intptr t];
              EFprintf outfile fmt_IntervalStart
                [arg_ull cycles; arg_str d;
                 arg_uint (intervalIDCounter (statics m))]]
         | call_stopInterval t i d =>
             [EFprintf outfile fmt_threadID [arg_intptr t];
              EFprintf outfile fmt_IntervalEnd
                [arg_ull cycles; arg_str d; arg_uint (to_uint i)]]
         | call_annotateInterval t i d =>
             [EFprintf outfile fmt_threadID [arg_intptr t];
              EFprintf outfile fmt_IntervalAnnotation
                [arg_str " "; arg_str d; arg_uint (to_uint i)]]
         | call_serializeTelemetryBuffer _ => []
         end.
Proof.
  intros Hwf Hact Hdr Hp cycles.
  destruct (producer_then_drain outfile c m Hwf Hact Hdr Hp)
    as (Hrun & Hdrain & Htrace).
  eexists _, _, _. split; [exact Hrun|]. split; [reflexivity|].
  split; [exact Hdrain|]. rewrite Htrace. f_equal.
  destruct c; try discriminate; reflexivity.
Qed.

Lemma producer_then_drain_prints_its_line_witness :
  wf drained_sample /\
  exists r m1 m2,
    perform (call_stopInterval 8 (-1) "A") drained_sample = Some (r, m1) /\
    serializeTelemetryBuffer 1%nat m1 = Some (tt, m2) /\
    trace (env m2)
    = trace (env m1)
      ++ [EFprintf 1%nat fmt_threadID [arg_intptr 8];
          EFprintf 1%nat fmt_IntervalEnd
            [arg_ull 1000; arg_str "A"; arg_uint 4294967295]].
Proof.
  destruct drained_sample_ready as (Hwf & Hact & Hdr).
  split; [exact Hwf|].
  destruct (producer_then_drain_prints_its_line 1%nat
              (call_stopInterval 8 (-1) "A") drained_sample
              Hwf Hact Hdr eq_refl)
    as (r & m1 & m2 & Hrun & _ & Hdrain & Htrace).
  exists r, m1, m2. split; [exact Hrun|]. split; [exact Hdrain|].
  exact Htrace.
Defined.

(** ** Drain passes in a row, and the first one *)

Lemma drained_nothing outfile m :
  lastSerializedIndex (statics m) = recordBufferIndex (statics m) ->
  drained outfile (drain_slots m) m = m.
Proof.
  intros H. unfold drain_slots. rewrite H, Z.ltb_irrefl, Z.sub_diag.
  rewrite seqZ_nil by lia. unfold drained, lines. cbn [flat_map].
  rewrite emitted_nil. destruct m as [[tps buf wi li be act cnt] w].
  cbn in *. subst li. reflexivity.
Qed.

(** X3. A drain pass right after a drain pass returns and changes
    nothing: it prints no line and leaves both cursors where they are. *)
Theorem second_drain_pass_does_nothing outfile outfile' m :
  wf m ->
  exists m1,
    serializeTelemetryBuffer outfile m = Some (tt, m1) /\
    lastSerializedIndex (statics m1) = recordBufferIndex (statics m1) /\
    serializeTelemetryBuffer outfile' m1 = Some (tt, m1).
Proof.
  intros Hwf. exists (drained outfile (drain_slots m) m).
  split; [apply serializeTelemetryBuffer_eq; exact Hwf|].
  split; [reflexivity|].
  rewrite serializeTelemetryBuffer_eq by (apply wf_drained; exact Hwf).
  rewrite drained_nothing by reflexivity. reflexivity.
Qed.

Lemma second_drain_pass_does_nothing_witness :
  wf wrapped_machine /\
  exists m1,
    serializeTelemetryBuffer 1%nat wrapped_machine = Some (tt, m1) /\
    serializeTelemetryBuffer 1%nat m1 = Some (tt, m1).
Proof.
  assert (Hwf : wf wrapped_machine)
    by (apply wfb_sound; vm_compute; reflexivity).
  split; [exact Hwf|].
  destruct (second_drain_pass_does_nothing 1%nat 1%nat wrapped_machine Hwf)
    as (m1 & H1 & _ & H2).
  exists m1. split; assumption.
Defined.

Lemma initialised_cursors outfile m :
  wf m ->
  recordBufferIndex (statics (initialised outfile m))
  = (recordBufferIndex (statics m) + 2) mod 10000 /\
  lastSerializedIndex (statics (initialised outfile m))
  = lastSerializedIndex (statics m).
Proof.
  intros [_ Hw _ _]. unfold RECORD_BUFFER_SIZE in Hw. split; [|reflexivity].
  cbn. unfold RECORD_BUFFER_SIZE.
  rewrite (to_uint_small (recordBufferIndex (statics m) + 1)) by lia.
  pose proof (Z.mod_pos_bound (recordBufferIndex (statics m) + 1) 10000
                ltac:(lia)).
  rewrite to_uint_small by lia. rewrite Zplus_mod_idemp_l. f_equal. lia.
Qed.

(** X4. [initTelemetry] on a machine with nothing left to drain, then the
    serializer: the pass prints two lines, the Calibration line with the
    factor [initTelemetry] stored and the Epoch line with the value of
    [beginningEpoch], each behind the thread field its slot held before. *)
Theorem first_drain_prints_calibration_and_epoch outfile m :
  wf m ->
  lastSerializedIndex (statics m) = recordBufferIndex (statics m) ->
  let c := recordBufferIndex (statics m) in
  exists m1 m2,
    initTelemetry outfile m = Some (tt, m1) /\
    serializeTelemetryBuffer outfile m1 = Some (tt, m2) /\
    trace (env m2)
    = trace (env m1)
      ++ [EFprintf outfile fmt_threadID [arg_intptr (threadID (get_slot c m))];
          EFprintf outfile fmt_Calibration
            [arg_double (ticksPerSecond (statics m1))];
          EFprintf outfile fmt_threadID
            [arg_intptr (threadID (get_slot ((c + 1) mod 10000) m))];
          EFprintf outfile fmt_Epoch [arg_ull (beginningEpoch (statics m1))]].
Proof.
  intros Hwf Hdr c. pose proof Hwf as [_ Hw _ _].
  unfold RECORD_BUFFER_SIZE in Hw.
  pose proof (wf_initialised outfile m Hwf) as Hwf1.
  destruct (initialised_cursors outfile m Hwf) as [Hc Hl].
  exists (initialised outfile m),
    (drained outfile (drain_slots (initialised outfile m))
       (initialised outfile m)).
  split; [apply initTelemetry_eq; exact Hwf|].
  split; [apply serializeTelemetryBuffer_eq; exact Hwf1|].
  cbn [drained env emitted trace]. f_equal.
  rewrite (drain_slots_since _ c 2); try lia; try congruence; try exact Hc.
  unfold lines. rewrite flat_map_fmap.
  change (seqZ 0 2) with [0; 1]. cbn [flat_map].
  rewrite Z.add_0_r, (Z.mod_small c) by (subst c; lia).
  subst c. rewrite initialised_calibration_slot, initialised_epoch_slot
    by exact Hwf.
  reflexivity.
Qed.

Lemma first_drain_prints_calibration_and_epoch_witness :
  wf sample_machine /\
  exists m1 m2,
    initTelemetry 1%nat sample_machine = Some (tt, m1) /\
    serializeTelemetryBuffer 1%nat m1 = Some (tt, m2) /\
    trace (env m2)
    = trace (env m1)
      ++ [EFprintf 1%nat fmt_threadID [arg_intptr 0];
          EFprintf 1%nat fmt_Calibration [arg_double 1000%float];
          EFprintf 1%nat fmt_threadID [arg_intptr 0];
          EFprintf 1%nat fmt_Epoch [arg_ull 2017]].
Proof.
  split; [apply wf_boot|].
  destruct (first_drain_prints_calibration_and_epoch 1%nat sample_machine
              (wf_boot _ _) eq_refl)
    as (m1 & m2 & Hinit & Hdrain & Htrace).
  exists m1, m2. split; [exact Hinit|]. split; [exact Hdrain|].
  rewrite Htrace. f_equal.
  pose proof (initTelemetry_eq 1%nat sample_machine (wf_boot _ _)) as Heq.
  rewrite Heq in Hinit. injection Hinit as <-.
  vm_compute. reflexivity.
Defined.

(** ** The thread field of the first two records *)

(** The serializer on the machine [initTelemetry] left, with nothing to
    drain before the call. *)
Lemma initialised_then_drained outfile m :
  wf m ->
  lastSerializedIndex (statics m) = recordBufferIndex (statics m) ->
  let c := recordBufferIndex (statics m) in
  let m1 := initialised outfile m in
  trace (env (drained outfile (drain_slots m1) m1))
  = trace (env m1)
    ++ [EFprintf outfile fmt_threadID [arg_intptr (threadID (get_slot c m))];
        EFprintf outfile fmt_Calibration
          [arg_double (ticksPerSecond (statics m1))];
        EFprintf outfile fmt_threadID
          [arg_intptr (threadID (get_slot ((c + 1) mod 10000) m))];
        EFprintf outfile fmt_Epoch [arg_ull (beginningEpoch (statics m1))]].
Proof.
  intros Hwf Hdr c m1. pose proof Hwf as [_ Hw _ _].
  unfold RECORD_BUFFER_SIZE in Hw.
  destruct (initialised_cursors outfile m Hwf) as [Hc Hl].
  subst m1. cbn [drained env emitted trace]. f_equal.
  rewrite (drain_slots_since _ c 2); try lia; try congruence; try exact Hc.
  unfold lines. rewrite flat_map_fmap.
  change (seqZ 0 2) with [0; 1]. cbn [flat_map].
  rewrite Z.add_0_r, (Z.mod_small c) by (subst c; lia).
  subst c. rewrite initialised_calibration_slot, initialised_epoch_slot
    by exact Hwf.
  reflexivity.
Qed.

(** C10. [initTelemetry] on a well-formed machine returns.  The slot under
    the write cursor then holds a record of kind Calibration with the
    factor just computed, the next slot one of kind Epoch with the cycle
    count just read; the [threadID] of each is the one its slot held
    before, which is 0 in a freshly loaded process.  The serializer prints
    that field for both: the loop body [serialize_slot] on either slot, and
    [serializeTelemetryBufferRange] over either slot, to any stream, call
    [fprintf] with the thread format and the old [threadID] of the slot and
    then with the format and the value of the record's kind; and a drain
    pass that had nothing to drain before [initTelemetry] prints just these
    four pieces.  Cut at its conversions, the line of either record starts
    with the thread field. *)
Theorem initTelemetry_leaves_threadID outfile m :
  wf m ->
  let c := recordBufferIndex (statics m) in
  let e := (c + 1) mod 10000 in
  exists m',
    initTelemetry outfile m = Some (tt, m') /\
    get_slot c m'
    = {| recordType := Calibration;
         threadID := threadID (get_slot c m);
         u := calibration
                {| calibration_ticksPerSecond := ticksPerSecond (statics m') |} |} /\
    get_slot e m'
    = {| recordType := Epoch;
         threadID := threadID (get_slot e m);
         u := epoch {| epoch_time := beginningEpoch (statics m') |} |} /\
    (forall tsc clock, m = boot tsc clock ->
       threadID (get_slot c m') = 0 /\ threadID (get_slot e m') = 0) /\
    line_pieces (line outfile (beginningEpoch (statics m')) (get_slot c m'))
    = [Conv "% 10x" (arg_intptr (threadID (get_slot c m))); Text " ";
       Text "Calibration: ";
       Conv "%f" (arg_double (ticksPerSecond (statics m')));
       Text (String.append " ticks per second" newline)] /\
    line_pieces (line outfile (beginningEpoch (statics m')) (get_slot e m'))
    = [Conv "% 10x" (arg_intptr (threadID (get_slot e m))); Text " ";
       Text "Epoch counter: ";
       Conv "%ld" (arg_ull (beginningEpoch (statics m')));
       Text newline] /\
    (forall out,
       let calibration_line :=
         [EFprintf out fmt_threadID [arg_intptr (threadID (get_slot c m))];
          EFprintf out fmt_Calibration
            [arg_double (ticksPerSecond (statics m'))]] in
       let epoch_line :=
         [EFprintf out fmt_threadID [arg_intptr (threadID (get_slot e m))];
          EFprintf out fmt_Epoch [arg_ull (beginningEpoch (statics m'))]] in
       serialize_slot out c m' = Some (tt, emitted calibration_line m') /\
       serialize_slot out e m' = Some (tt, emitted epoch_line m') /\
       serializeTelemetryBufferRange out c (c + 1) m'
       = Some (tt, emitted calibration_line m') /\
       serializeTelemetryBufferRange out e (e + 1) m'
       = Some (tt, emitted epoch_line m')) /\
    (lastSerializedIndex (statics m) = c ->
     exists m2,
       serializeTelemetryBuffer outfile m' = Some (tt, m2) /\
       trace (env m2)
       = trace (env m')
         ++ [EFprintf outfile fmt_threadID
               [arg_intptr (threadID (get_slot c m))];
             EFprintf outfile fmt_Calibration
               [arg_double (ticksPerSecond (statics m'))];
             EFprintf outfile fmt_threadID
               [arg_intptr (threadID (get_slot e m))];
             EFprintf outfile fmt_Epoch
               [arg_ull (beginningEpoch (statics m'))]]).
Proof.
  intros Hwf c e. exists (initialised outfile m).
  split; [apply initTelemetry_eq; exact Hwf|].
  pose proof (initialised_calibration_slot outfile m Hwf) as Hc.
  pose proof (initialised_epoch_slot outfile m Hwf) as He.
  pose proof (wf_initialised outfile m Hwf) as Hwf1.
  assert (Hcb : 0 <= c < RECORD_BUFFER_SIZE) by (subst c; apply Hwf).
  destruct (next_slot_differs c Hcb) as [Heb _].
  fold c in Hc, He. fold e in He, Heb.
  split; [exact Hc|]. split; [exact He|]. split.
  { intros tsc clock ->. rewrite Hc, He. cbn [threadID].
    split; apply boot_threadID. }
  split; [rewrite Hc; reflexivity|].
  split; [rewrite He; reflexivity|].
  split.
  - intros out. cbv zeta. unfold RECORD_BUFFER_SIZE in Hcb.
    rewrite !serializeTelemetryBufferRange_eq
      by (try exact Hwf1; unfold RECORD_BUFFER_SIZE; lia).
    rewrite !serialize_slot_eq
      by (try exact Hwf1; unfold RECORD_BUFFER_SIZE; lia).
    replace (c + 1 - c) with 1 by lia. replace (e + 1 - e) with 1 by lia.
    change (seqZ c 1) with [c]. change (seqZ e 1) with [e].
    unfold lines. cbn [flat_map]. rewrite !app_nil_r, Hc, He.
    split; [reflexivity|]. split; [reflexivity|]. split; reflexivity.
  - intros Hdr.
    exists (drained outfile (drain_slots (initialised outfile m))
              (initialised outfile m)).
    split; [apply serializeTelemetryBuffer_eq; exact Hwf1|].
    apply initialised_then_drained; assumption.
Qed.

Lemma initTelemetry_leaves_threadID_witness :
  wf sample_machine /\
  exists m',
    initTelemetry 1%nat sample_machine = Some (tt, m') /\
    threadID (get_slot 0 m') = 0 /\ threadID (get_slot 1 m') = 0 /\
    serialize_slot 1%nat 0 m'
    = Some (tt, emitted [EFprintf 1%nat fmt_threadID [arg_intptr 0];
                         EFprintf 1%nat fmt_Calibration
                           [arg_double 1000%float]] m') /\
    serialize_slot 1%nat 1 m'
    = Some (tt, emitted [EFprintf 1%nat fmt_threadID [arg_intptr 0];
                         EFprintf 1%nat fmt_Epoch [arg_ull 2017]] m').
Proof.
  split; [apply wf_boot|].
  destruct (initTelemetry_leaves_threadID 1%nat sample_machine (wf_boot _ _))
    as (m' & Hrun & _ & _ & H0 & _ & _ & Hout & _).
  exists m'. split; [exact Hrun|].
  destruct (H0 _ _ eq_refl) as [Hzc Hze].
  split; [exact Hzc|]. split; [exact Hze|].
  destruct (Hout 1%nat) as (Hsc & Hse & _).
  pose proof (initTelemetry_eq 1%nat sample_machine (wf_boot _ _)) as Heq.
  rewrite Heq in Hrun. injection Hrun as <-.
  split.
  - refine (eq_trans Hsc _). repeat f_equal; vm_compute; reflexivity.
  - refine (eq_trans Hse _). repeat f_equal; vm_compute; reflexivity.
Defined.

(** ** Runs of any length *)

Lemma run_ids_wrap cs : forall c m,
  wf m -> telemetry_active (statics m) <> 0 ->
  intervalIDCounter (statics m) = to_uint c ->
  exists rs m',
    run cs m = Some (rs, m') /\
    interval_ids rs = (fun j => to_uint (c + j)) <$> seqZ 0 (starts cs) /\
    intervalIDCounter (statics m') = to_uint (c + starts cs).
Proof.
  induction cs as [|call cs IH]; intros c m Hwf Hact Hc.
  - exists [], m. cbn. rewrite Z.add_0_r. auto.
  - cbn [run starts]. pose proof (starts_nonneg cs) as Hs.
    destruct (perform_active call m Hwf Hact) as (r & m1 & Hrun & Hk & Hid).
    pose proof Hk as [Hwf1 Hact1 _].
    destruct (is_startInterval call); destruct Hid as [-> Hcnt].
    + destruct (IH (c + 1) m1) as (rs & m' & Hrun' & Hids & Hcnt');
        [exact Hwf1 | congruence | |].
      { rewrite Hcnt, Hc. apply to_uint_succ. }
      exists (Some (intervalIDCounter (statics m)) :: rs), m'.
      unfold bind, ret. rewrite Hrun, Hrun'.
      split; [reflexivity|]. split.
      * unfold interval_ids in *. cbn. rewrite Hids, Hc.
        rewrite (seqZ_cons 0 (1 + starts cs)) by lia. cbn [fmap list_fmap].
        rewrite Z.add_0_r. f_equal.
        replace (Z.pred (1 + starts cs)) with (starts cs) by lia.
        change (Z.succ 0) with (1 + 0). rewrite <- fmap_add_seqZ.
        rewrite <- list_fmap_compose. apply list_fmap_ext.
        intros i j _. cbn. f_equal. lia.
      * rewrite Hcnt'. f_equal. lia.
    + destruct (IH c m1) as (rs & m' & Hrun' & Hids & Hcnt');
        [exact Hwf1 | congruence | congruence |].
      exists (None :: rs), m'.
      unfold bind, ret. rewrite Hrun, Hrun'.
      split; [reflexivity|]. split; [exact Hids | exact Hcnt'].
Qed.

(** X5. In a run of any length of an initialised recorder, the
    identifiers [startInterval] hands out are the values of the counter
    modulo [2^32]: after 4294967295 comes 0, the value also returned while
    switched off, and from there on identifiers repeat. *)
Theorem startInterval_ids_wrap_around cs m :
  wf m -> telemetry_active (statics m) <> 0 ->
  0 <= intervalIDCounter (statics m) < 2 ^ 32 ->
  exists rs m',
    run cs m = Some (rs, m') /\
    interval_ids rs
    = (fun j => (intervalIDCounter (statics m) + j) mod 2 ^ 32)
      <$> seqZ 0 (starts cs) /\
    intervalIDCounter (statics m')
    = (intervalIDCounter (statics m) + starts cs) mod 2 ^ 32.
Proof.
  intros Hwf Hact Hc.
  apply (run_ids_wrap cs (intervalIDCounter (statics m)) m Hwf Hact).
  symmetry. apply to_uint_small. exact Hc.
Qed.

Lemma startInterval_ids_wrap_around_witness :
  wf last_id_sample /\
  exists rs m',
    run [call_startInterval 7 "A"; call_takeTimeStamp 7 "mark";
         call_startInterval 8 "B"] last_id_sample = Some (rs, m') /\
    interval_ids rs = [4294967295; 0].
Proof.
  assert (Hwf : wf last_id_sample).
  { apply (wf_statics_only drained_sample); try reflexivity.
    apply drained_sample_ready. }
  split; [exact Hwf|].
  destruct (startInterval_ids_wrap_around
              [call_startInterval 7 "A"; call_takeTimeStamp 7 "mark";
               call_startInterval 8 "B"] last_id_sample Hwf)
    as (rs & m' & Hrun & Hids & _).
  - cbn. discriminate.
  - cbn. lia.
  - exists rs, m'. split; [exact Hrun | exact Hids].
Defined.

(** ** From the start of the process *)

Lemma perform_inactive c m :
  wf m -> telemetry_active (statics m) = 0 ->
  lastSerializedIndex (statics m) = recordBufferIndex (statics m) ->
  exists r, perform c m = Some (r, m) /\ (r = None \/ r = Some 0).
Proof.
  intros Hwf Hact Hdr.
  destruct c as [t d|t d|t i d|t i d|f]; cbn [perform].
  - exists None. unfold takeTimeStamp, bind, load, ret. rewrite Hact. auto.
  - exists (Some 0). unfold startInterval, bind, load, ret. rewrite Hact. auto.
  - exists None. unfold stopInterval, bind, load, ret. rewrite Hact. auto.
  - exists None. unfold annotateInterval, bind, load, ret. rewrite Hact. auto.
  - exists None. unfold bind, ret.
    rewrite serializeTelemetryBuffer_eq, drained_nothing by assumption. auto.
Qed.

Lemma run_inactive cs m :
  wf m -> telemetry_active (statics m) = 0 ->
  lastSerializedIndex (statics m) = recordBufferIndex (statics m) ->
  exists rs,
    run cs m = Some (rs, m) /\ Forall (fun r => r = None \/ r = Some 0) rs.
Proof.
  intros Hwf Hact Hdr. induction cs as [|c cs [rs [Hrun Hrs]]].
  - exists []. split; [reflexivity | constructor].
  - destruct (perform_inactive c m Hwf Hact Hdr) as (r & Hc & Hr).
    exists (r :: rs). cbn [run]. unfold bind, ret. rewrite Hc, Hrun.
    split; [reflexivity | constructor; assumption].
Qed.

(** X6. In a process that starts from its initialisers, whatever the
    clocks read: any calls made before [initTelemetry] return and leave
    the machine as it was loaded (no record, no line; [startInterval]
    gives 0); [initTelemetry] returns; and any calls made after it,
    producers and drain passes in any order and number, return and leave a
    well-formed machine.  No call of such a run indexes outside
    [recordBuffer] or reads a union member other than the one that was
    stored. *)
Theorem calls_from_boot_are_defined tsc clock outfile before after :
  exists rs0 m1 rs m2,
    run before (boot tsc clock) = Some (rs0, boot tsc clock) /\
    Forall (fun r => r = None \/ r = Some 0) rs0 /\
    initTelemetry outfile (boot tsc clock) = Some (tt, m1) /\
    run after m1 = Some (rs, m2) /\
    length rs = length after /\
    wf m2 /\
    telemetry_active (statics m2) = 1 /\
    beginningEpoch (statics m2) = beginningEpoch (statics m1).
Proof.
  pose proof (wf_boot tsc clock) as Hwf.
  destruct (run_inactive before (boot tsc clock) Hwf eq_refl eq_refl)
    as (rs0 & Hrun0 & Hrs0).
  destruct (run_kept after (initialised outfile (boot tsc clock)))
    as (rs & m2 & Hrun & [Hwf2 Hact He]).
  { apply wf_initialised. exact Hwf. }
  { cbn. discriminate. }
  exists rs0, (initialised outfile (boot tsc clock)), rs, m2.
  split; [exact Hrun0|]. split; [exact Hrs0|].
  split; [apply initTelemetry_eq; exact Hwf|].
  split; [exact Hrun|]. split; [eapply run_length; exact Hrun|].
  split; [exact Hwf2|]. split; [exact Hact | exact He].
Qed.

(** ** More on producers in parallel *)

Lemma next_in_array i : in_array (to_uint (i + 1) mod RECORD_BUFFER_SIZE).
Proof. unfold in_array, RECORD_BUFFER_SIZE. apply Z.mod_pos_bound. lia. Qed.

Lemma conc_step_in_array t s : conc_in_array s -> conc_in_array (Conc.step t s).
Proof.
  intros [Hc Ht Hg]. unfold Conc.step.
  destruct (Conc.threads s !! t) as [p|] eqn:Hp; [|split; assumption].
  pose proof (Forall_lookup_1 _ _ _ _ Ht Hp) as Hpc.
  destruct p as [|i|i n]; cbn in Hpc.
  - split; cbn; [assumption | apply Forall_insert; assumption | assumption].
  - split; cbn; [assumption | | assumption].
    apply Forall_insert; [assumption|]. split; [exact Hpc | apply next_in_array].
  - destruct Hpc as [Hi Hn]. destruct (Conc.cursor s =? i).
    + split; cbn; [exact Hn | apply Forall_insert; [assumption | exact I] |].
      constructor; assumption.
    + split; cbn; [assumption | apply Forall_insert; [assumption | exact I]
                   | assumption].
Qed.

Lemma conc_exec_in_array sched : forall s,
  conc_in_array s -> conc_in_array (Conc.exec sched s).
Proof.
  induction sched as [|t sched IH]; intros s Hs; [exact Hs|].
  apply IH, conc_step_in_array, Hs.
Qed.

(** X7. However the steps of any number of threads inside [newRecord]
    are interleaved, the write cursor stays an index of [recordBuffer] and
    every call returns the address of a slot of [recordBuffer]. *)
Theorem concurrent_newRecord_stays_in_array n sched :
  let s := Conc.exec sched (Conc.init n) in
  0 <= Conc.cursor s < RECORD_BUFFER_SIZE /\
  forall t i, (t, i) ∈ Conc.grants s -> 0 <= i < RECORD_BUFFER_SIZE.
Proof.
  assert (H : conc_in_array (Conc.exec sched (Conc.init n))).
  { apply conc_exec_in_array. split; cbn.
    - unfold in_array, RECORD_BUFFER_SIZE. lia.
    - apply Forall_replicate. exact I.
    - constructor. }
  destruct H as [Hc _ Hg]. split; [exact Hc|].
  intros t i Hin. rewrite Forall_forall in Hg. apply (Hg (t, i) Hin).
Qed.

Lemma conc_exec_app s1 s2 s :
  Conc.exec (s1 ++ s2) s = Conc.exec s2 (Conc.exec s1 s).
Proof. apply fold_left_app. Qed.

Lemma conc_step_eq t s p :
  Conc.threads s !! t = Some p ->
  Conc.step t s
  = match p with
    | Conc.at_load_recordIndex =>
        Conc.move t (Conc.at_load_newBufferIndex (Conc.cursor s)) s
    | Conc.at_load_newBufferIndex recordIndex =>
        Conc.move t (Conc.at_compare_exchange recordIndex
                       (to_uint (Conc.cursor s + 1) mod RECORD_BUFFER_SIZE)) s
    | Conc.at_compare_exchange recordIndex newBufferIndex =>
        if Conc.cursor s =? recordIndex
        then {| Conc.cursor := newBufferIndex;
                Conc.threads :=
                  <[t := Conc.at_load_recordIndex]> (Conc.threads s);
                Conc.grants := (t, recordIndex) :: Conc.grants s |}
        else Conc.move t Conc.at_load_recordIndex s
    end.
Proof. intros H. unfold Conc.step. rewrite H. reflexivity. Qed.

Lemma conc_move_lookup t p s :
  (t < length (Conc.threads s))%nat ->
  Conc.threads (Conc.move t p s) !! t = Some p.
Proof. intros H. cbn. apply list_lookup_insert_eq. exact H. Qed.

Lemma conc_move_length t p s :
  length (Conc.threads (Conc.move t p s)) = length (Conc.threads s).
Proof. cbn. apply length_insert. Qed.

(** X8. A thread that is left to run alone finishes its call: from any
    state, wherever the thread stands in the loop, at most five steps of
    its own (one failed exchange at most) and it has been handed a slot. *)
Theorem solo_thread_finishes_its_call t s :
  (t < length (Conc.threads s))%nat ->
  exists k i,
    (1 <= k <= 5)%nat /\
    Conc.grants (Conc.exec (replicate k t) s) = (t, i) :: Conc.grants s.
Proof.
  intros Hlt.
  destruct (lookup_lt_is_Some_2 _ _ Hlt) as [p Hp].
  assert (Hretry :
    forall s', Conc.threads s' !! t = Some Conc.at_load_recordIndex ->
      Conc.grants (Conc.exec [t; t; t] s')
      = (t, Conc.cursor s') :: Conc.grants s').
  { intros s' H. rewrite solo_call_grants_cursor by exact H. reflexivity. }
  assert (Hcas : forall s' i n,
    (t < length (Conc.threads s'))%nat ->
    Conc.threads s' !! t = Some (Conc.at_compare_exchange i n) ->
    exists k j, (1 <= k <= 4)%nat /\
      Conc.grants (Conc.exec (replicate k t) s') = (t, j) :: Conc.grants s').
  { intros s' i n Hlt' Hp'.
    destruct (Z.eqb_spec (Conc.cursor s') i) as [Heq|Hne].
    - exists 1%nat, i. split; [lia|]. cbn [replicate Conc.exec fold_left].
      rewrite (conc_step_eq _ _ _ Hp'), Heq, Z.eqb_refl. reflexivity.
    - exists 4%nat, (Conc.cursor s'). split; [lia|].
      change (replicate 4 t) with ([t] ++ [t; t; t]).
      rewrite conc_exec_app. change (Conc.exec [t] s') with (Conc.step t s').
      rewrite (conc_step_eq _ _ _ Hp').
      apply Z.eqb_neq in Hne. rewrite Hne.
      rewrite Hretry by (apply conc_move_lookup; exact Hlt'). reflexivity. }
  destruct p as [|i|i n].
  - exists 3%nat, (Conc.cursor s). split; [lia|]. apply Hretry, Hp.
  - destruct (Hcas (Conc.step t s) i
                (to_uint (Conc.cursor s + 1) mod RECORD_BUFFER_SIZE))
      as (k & j & Hk & Hg).
    + rewrite (conc_step_eq _ _ _ Hp), conc_move_length. exact Hlt.
    + rewrite (conc_step_eq _ _ _ Hp). apply conc_move_lookup. exact Hlt.
    + exists (S k), j. split; [lia|].
      cbn [replicate]. change (t :: replicate k t) with ([t] ++ replicate k t).
      rewrite conc_exec_app. change (Conc.exec [t] s) with (Conc.step t s).
      rewrite Hg, (conc_step_eq _ _ _ Hp). reflexivity.
  - destruct (Hcas s i n Hlt Hp) as (k & j & Hk & Hg).
    exists k, j. split; [lia | exact Hg].
Qed.

Lemma solo_thread_finishes_its_call_witness :
  (0 < length (Conc.threads (Conc.init 2)))%nat /\
  exists k i,
    (1 <= k <= 5)%nat /\
    Conc.grants (Conc.exec (replicate k 0%nat) (Conc.init 2))
    = (0%nat, i) :: Conc.grants (Conc.init 2).
Proof.
  assert (H : (0 < length (Conc.threads (Conc.init 2)))%nat) by (cbn; lia).
  split; [exact H|]. exact (solo_thread_finishes_its_call 0%nat _ H).
Defined.

(** ** The background thread *)

Lemma background_join_after_stop f t p :
  Background.running f t ->
  wf (Background.machine p) ->
  Background.thread p = t ->
  Background.continueBackgroundSerialization p = 0 ->
  forall fuel, (4 <= fuel)%nat ->
  Background.pthread_join fuel p
  = Some {| Background.machine :=
              match t with
              | Background.at_sleep _ =>
                  let m := emitted [ESleep 1] (Background.machine p) in
                  drained f (drain_slots m) m
              | Background.at_serialize _ =>
                  drained f (drain_slots (Background.machine p))
                    (Background.machine p)
              | _ => Background.machine p
              end;
            Background.continueBackgroundSerialization := 0;
            Background.thread := Background.joined;
            Background.closed := Background.closed p ++ [f] |}.
Proof.
  intros Hrun Hwf Ht Hflag fuel Hfuel.
  destruct p as [m flag th cl]. cbn in *. subst th flag.
  do 4 (destruct fuel as [|fuel]; [lia|]).
  destruct Hrun as [-> | [-> | [-> | ->]]].
  - destruct fuel; reflexivity.
  - cbn -[serializeTelemetryBuffer drain_slots].
    change {| statics := statics m; env := env_emit (ESleep 1) (env m) |}
      with (emitted [ESleep 1] m).
    rewrite serializeTelemetryBuffer_eq by (apply wf_emitted; exact Hwf).
    destruct fuel; reflexivity.
  - cbn -[serializeTelemetryBuffer drain_slots].
    rewrite serializeTelemetryBuffer_eq by exact Hwf.
    destruct fuel; reflexivity.
  - destruct fuel; reflexivity.
Qed.

(** X9. [finishTelemetry], called while the background thread runs,
    returns once the thread has: the flag is 0, the stream the thread was
    given has been closed, once, and the thread has made at most the drain
    pass it was in the middle of.  A thread that stood at the test of its
    loop makes none: the machine is as it was, whatever was recorded since
    the last pass is still in the buffer and unprinted.  [telemetry_active],
    the buffer and the write cursor are not touched in any case. *)
Theorem finishTelemetry_stops_the_thread f p fuel :
  Background.running f (Background.thread p) ->
  wf (Background.machine p) ->
  (4 <= fuel)%nat ->
  exists p',
    Background.finishTelemetry fuel p = Some p' /\
    Background.thread p' = Background.joined /\
    Background.continueBackgroundSerialization p' = 0 /\
    Background.closed p' = Background.closed p ++ [f] /\
    (Background.thread p = Background.at_test f \/
     Background.thread p = Background.at_fclose f ->
     Background.machine p' = Background.machine p) /\
    (Background.thread p = Background.at_serialize f ->
     Background.machine p'
     = drained f (drain_slots (Background.machine p)) (Background.machine p)) /\
    (Background.thread p = Background.at_sleep f ->
     Background.machine p'
     = drained f (drain_slots (Background.machine p))
         (emitted [ESleep 1] (Background.machine p))) /\
    telemetry_active (statics (Background.machine p'))
    = telemetry_active (statics (Background.machine p)) /\
    recordBuffer (statics (Background.machine p'))
    = recordBuffer (statics (Background.machine p)) /\
    recordBufferIndex (statics (Background.machine p'))
    = recordBufferIndex (statics (Background.machine p)).
Proof.
  intros Hrun Hwf Hfuel. unfold Background.finishTelemetry.
  rewrite (background_join_after_stop f (Background.thread p))
    by (try assumption; reflexivity).
  eexists. split; [reflexivity|]. cbn.
  split; [reflexivity|]. split; [reflexivity|]. split; [reflexivity|].
  destruct Hrun as [H | [H | [H | H]]]; rewrite H;
    repeat split; try reflexivity; intros; try discriminate;
    repeat match goal with
           | H : _ \/ _ |- _ => destruct H
           end; try discriminate; reflexivity.
Qed.

Lemma finishTelemetry_stops_the_thread_witness :
  Background.running 1%nat (Background.thread sleeping_sample) /\
  wf (Background.machine sleeping_sample) /\
  exists p',
    Background.finishTelemetry 4 sleeping_sample = Some p' /\
    Background.thread p' = Background.joined /\
    Background.closed p' = [1%nat] /\
    lastSerializedIndex (statics (Background.machine p')) = 2.
Proof.
  assert (Hrun : Background.running 1%nat (Background.thread sleeping_sample))
    by (right; left; reflexivity).
  assert (Hwf : wf (Background.machine sleeping_sample))
    by apply wf_initialised, wf_boot.
  split; [exact Hrun|]. split; [exact Hwf|].
  destruct (finishTelemetry_stops_the_thread 1%nat sleeping_sample 4
              Hrun Hwf (le_n 4))
    as (p' & Hfin & Hth & _ & Hcl & _ & _ & Hm & _).
  exists p'. split; [exact Hfin|]. split; [exact Hth|].
  split; [exact Hcl|]. rewrite (Hm eq_refl). reflexivity.
Defined.

Lemma background_exec_calls cs : forall p rs m,
  run cs (Background.machine p) = Some (rs, m) ->
  Background.exec (Background.foreground_call <$> cs) p
  = Some (Background.on_machine m p).
Proof.
  induction cs as [|c cs IH]; intros p rs m Hrun.
  - cbn in *. injection Hrun as _ <-. destruct p. reflexivity.
  - cbn [run] in Hrun. unfold bind, ret in Hrun.
    destruct (perform c (Background.machine p)) as [[r m1]|] eqn:Hc;
      [|discriminate].
    destruct (run cs m1) as [[rs' m2]|] eqn:Hrs; [|discriminate].
    injection Hrun as _ <-.
    cbn [fmap list_fmap Background.exec Background.act].
    unfold Background.call. rewrite Hc.
    rewrite (IH (Background.on_machine m1 p) rs' m2) by exact Hrs.
    reflexivity.
Qed.

Lemma background_steps_joined n : forall p,
  Background.thread p = Background.joined ->
  Background.steps n p = Some p.
Proof.
  induction n as [|n IH]; intros p Hp; [reflexivity|].
  cbn [Background.steps]. unfold Background.step. rewrite Hp. apply IH, Hp.
Qed.

Lemma finishTelemetry_at_test f p fuel :
  Background.thread p = Background.at_test f ->
  (4 <= fuel)%nat ->
  Background.finishTelemetry fuel p
  = Some {| Background.machine := Background.machine p;
            Background.continueBackgroundSerialization := 0;
            Background.thread := Background.joined;
            Background.closed := Background.closed p ++ [f] |}.
Proof.
  intros Hth Hfuel. unfold Background.finishTelemetry. rewrite Hth.
  do 4 (destruct fuel as [|fuel]; [lia|]). destruct fuel; reflexivity.
Qed.

(** X10. [finishTelemetry] does not drain.  Let producers be called after
    a drain pass, the background thread standing at the test of its loop,
    and then [finishTelemetry]: the thread returns without a pass, the
    records stay where the producers put them, the drain cursor stays
    behind the write cursor, and no later step of the thread moves it. *)
Theorem finishTelemetry_leaves_records_undrained f p cs fuel :
  Background.thread p = Background.at_test f ->
  wf (Background.machine p) ->
  telemetry_active (statics (Background.machine p)) <> 0 ->
  lastSerializedIndex (statics (Background.machine p))
  = recordBufferIndex (statics (Background.machine p)) ->
  forallb is_producer cs = true ->
  (4 <= fuel)%nat ->
  exists p1 p2,
    Background.exec (Background.foreground_call <$> cs) p = Some p1 /\
    Background.finishTelemetry fuel p1 = Some p2 /\
    Background.machine p2 = Background.machine p1 /\
    Background.thread p2 = Background.joined /\
    lastSerializedIndex (statics (Background.machine p2))
    = recordBufferIndex (statics (Background.machine p)) /\
    recordBufferIndex (statics (Background.machine p2))
    = (recordBufferIndex (statics (Background.machine p))
       + Z.of_nat (length cs)) mod 10000 /\
    (forall j, (j < length cs)%nat ->
       Z.of_nat (length cs) - Z.of_nat j <= 10000 ->
       written cs (Background.machine p) !! j
       = Some (get_slot ((recordBufferIndex (statics (Background.machine p))
                          + Z.of_nat j) mod 10000)
                 (Background.machine p2))) /\
    forall n, Background.steps n p2 = Some p2.
Proof.
  intros Hth Hwf Hact Hdr Hp Hfuel.
  destruct (run_producers cs _ Hwf Hact Hp) as [rs Hrun].
  destruct (after_producers_kept cs _ Hwf) as (Hwf1 & Hc & Hl & _).
  set (m1 := after_producers cs (Background.machine p)) in *.
  eexists (Background.on_machine m1 p), _.
  split; [eapply background_exec_calls; exact Hrun|].
  split; [apply (finishTelemetry_at_test f); [exact Hth | exact Hfuel]|].
  cbn [Background.on_machine Background.machine Background.thread].
  split; [reflexivity|]. split; [reflexivity|].
  split; [rewrite Hl; exact Hdr|]. split; [exact Hc|].
  split.
  - intros j Hj Hlast. apply after_producers_recent; assumption.
  - intros n. apply background_steps_joined. reflexivity.
Qed.

Lemma finishTelemetry_leaves_records_undrained_witness :
  wf (Background.machine testing_sample) /\
  exists p1 p2,
    Background.exec
      (Background.foreground_call
       <$> [call_takeTimeStamp 7 "mark"; call_startInterval 8 "A"])
      testing_sample = Some p1 /\
    Background.finishTelemetry 4 p1 = Some p2 /\
    lastSerializedIndex (statics (Background.machine p2)) = 2 /\
    recordBufferIndex (statics (Background.machine p2)) = 4.
Proof.
  destruct drained_sample_ready as (Hwf & Hact & Hdr).
  split; [exact Hwf|].
  destruct (finishTelemetry_leaves_records_undrained 1%nat testing_sample
              [call_takeTimeStamp 7 "mark"; call_startInterval 8 "A"] 4
              eq_refl Hwf Hact Hdr eq_refl (le_n 4))
    as (p1 & p2 & Hexec & Hfin & _ & _ & Hl & Hc & _).
  exists p1, p2. split; [exact Hexec|]. split; [exact Hfin|].
  split; [exact Hl | exact Hc].
Defined.

(** X11. The flag is never set back to 1.  Once it is 0 (after
    [finishTelemetry]), a later [initTelemetry] writes its two records and
    starts a thread that finds the flag at 0 at its first test, closes the
    stream it was given and returns: it makes no drain pass, and the
    records are printed by no step of it. *)
Theorem restarted_thread_closes_at_once g p :
  Background.continueBackgroundSerialization p = 0 ->
  Background.thread p = Background.joined ->
  wf (Background.machine p) ->
  exists p1 p2,
    Background.initTelemetry g p = Some p1 /\
    Background.thread p1 = Background.at_test g /\
    recordBufferIndex (statics (Background.machine p1))
    = (recordBufferIndex (statics (Background.machine p)) + 2) mod 10000 /\
    Background.steps 2 p1 = Some p2 /\
    Background.thread p2 = Background.returned /\
    Background.closed p2 = Background.closed p ++ [g] /\
    Background.machine p2 = Background.machine p1 /\
    forall n, (2 <= n)%nat -> Background.steps n p1 = Some p2.
Proof.
  intros Hflag Hth Hwf. destruct p as [m flag th cl].
  cbn [Background.continueBackgroundSerialization Background.thread
       Background.machine Background.closed] in *.
  subst flag th.
  destruct (initialised_cursors g m Hwf) as [Hc _].
  exists {| Background.machine := initialised g m;
            Background.continueBackgroundSerialization := 0;
            Background.thread := Background.at_test g;
            Background.closed := cl |},
         {| Background.machine := initialised g m;
            Background.continueBackgroundSerialization := 0;
            Background.thread := Background.returned;
            Background.closed := cl ++ [g] |}.
  unfold Background.initTelemetry.
  cbn [Background.thread Background.machine].
  rewrite initTelemetry_eq by exact Hwf.
  split; [reflexivity|]. split; [reflexivity|].
  split; [exact Hc|].
  split; [reflexivity|]. split; [reflexivity|]. split; [reflexivity|].
  split; [reflexivity|].
  intros n Hn. do 2 (destruct n as [|n]; [lia|]).
  change (Background.steps n
            {| Background.machine := initialised g m;
               Background.continueBackgroundSerialization := 0;
               Background.thread := Background.returned;
               Background.closed := cl ++ [g] |}
          = Some {| Background.machine := initialised g m;
                    Background.continueBackgroundSerialization := 0;
                    Background.thread := Background.returned;
                    Background.closed := cl ++ [g] |}).
  clear Hn. induction n as [|n IH]; [reflexivity | exact IH].
Qed.

Lemma restarted_thread_closes_at_once_witness :
  wf (Background.machine finished_sample) /\
  exists p1 p2,
    Background.initTelemetry 2%nat finished_sample = Some p1 /\
    Background.steps 2 p1 = Some p2 /\
    Background.closed p2 = [1%nat; 2%nat] /\
    Background.machine p2 = Background.machine p1.
Proof.
  destruct drained_sample_ready as (Hwf & _).
  split; [exact Hwf|].
  destruct (restarted_thread_closes_at_once 2%nat finished_sample
              eq_refl eq_refl Hwf)
    as (p1 & p2 & Hinit & _ & _ & Hsteps & _ & Hcl & Hm & _).
  exists p1, p2. auto.
Defined.

(** X12. Until [finishTelemetry] is called: however the calls of the
    producers and of the serializer are interleaved with the steps of the
    background thread, every one of them returns, the thread stays in its
    loop, the stream is not closed, and the machine stays well-formed,
    switched on, with the same [beginningEpoch]. *)
Theorem background_thread_keeps_looping f sched : forall p,
  Background.looping f (Background.thread p) ->
  Background.continueBackgroundSerialization p <> 0 ->
  wf (Background.machine p) ->
  telemetry_active (statics (Background.machine p)) <> 0 ->
  exists p',
    Background.exec sched p = Some p' /\
    Background.looping f (Background.thread p') /\
    Background.closed p' = Background.closed p /\
    Background.continueBackgroundSerialization p'
    = Background.continueBackgroundSerialization p /\
    wf (Background.machine p') /\
    telemetry_active (statics (Background.machine p'))
    = telemetry_active (statics (Background.machine p)) /\
    beginningEpoch (statics (Background.machine p'))
    = beginningEpoch (statics (Background.machine p)).
Proof.
  induction sched as [|a sched IH]; intros p Hloop Hflag Hwf Hact.
  - exists p. split; [reflexivity|]. split; [exact Hloop|].
    split; [reflexivity|]. split; [reflexivity|]. split; [exact Hwf|].
    split; reflexivity.
  - assert (Hstep : exists p1,
      Background.act a p = Some p1 /\
      Background.looping f (Background.thread p1) /\
      Background.closed p1 = Background.closed p /\
      Background.continueBackgroundSerialization p1
      = Background.continueBackgroundSerialization p /\
      wf (Background.machine p1) /\
      telemetry_active (statics (Background.machine p1))
      = telemetry_active (statics (Background.machine p)) /\
      beginningEpoch (statics (Background.machine p1))
      = beginningEpoch (statics (Background.machine p))).
    { destruct a as [|c]; cbn [Background.act].
      - unfold Background.step.
        destruct Hloop as [H | [H | H]]; rewrite H.
        + apply Z.eqb_neq in Hflag. rewrite Hflag. eexists.
          split; [reflexivity|]. cbn.
          split; [right; left; reflexivity|]. auto.
        + eexists. split; [reflexivity|]. cbn.
          split; [right; right; reflexivity|].
          split; [reflexivity|]. split; [reflexivity|].
          split; [|split; reflexivity].
          apply (wf_statics_only (Background.machine p)); auto.
        + rewrite serializeTelemetryBuffer_eq by exact Hwf. eexists.
          split; [reflexivity|]. cbn.
          split; [left; reflexivity|].
          split; [reflexivity|]. split; [reflexivity|].
          split; [apply wf_drained; exact Hwf | split; reflexivity].
      - unfold Background.call.
        destruct (perform_active c _ Hwf Hact) as (r & m1 & Hc & [Hw Ha He] & _).
        rewrite Hc. eexists. split; [reflexivity|]. cbn. auto 10. }
    destruct Hstep as (p1 & Hact1 & Hl1 & Hc1 & Hf1 & Hw1 & Ha1 & He1).
    destruct (IH p1) as (p' & Hexec & Hl & Hc & Hf & Hw & Ha & He);
      try assumption; try congruence.
    exists p'. cbn [Background.exec]. rewrite Hact1.
    split; [exact Hexec|]. split; [exact Hl|].
    split; [congruence|]. split; [congruence|]. split; [exact Hw|].
    split; congruence.
Qed.

Lemma background_thread_keeps_looping_witness :
  wf (Background.machine testing_sample) /\
  exists p',
    Background.exec
      [Background.foreground_call (call_takeTimeStamp 7 "mark");
       Background.background_step; Background.background_step;
       Background.foreground_call (call_startInterval 8 "A");
       Background.background_step; Background.background_step]
      testing_sample = Some p' /\
    Background.closed p' = [].
Proof.
  destruct drained_sample_ready as (Hwf & Hact & _).
  split; [exact Hwf|].
  destruct (background_thread_keeps_looping 1%nat
              [Background.foreground_call (call_takeTimeStamp 7 "mark");
               Background.background_step; Background.background_step;
               Background.foreground_call (call_startInterval 8 "A");
               Background.background_step; Background.background_step]
              testing_sample)
    as (p' & Hexec & _ & Hcl & _).
  - left. reflexivity.
  - cbn. discriminate.
  - exact Hwf.
  - exact Hact.
  - exists p'. split; [exact Hexec | exact Hcl].
Defined.

(** ** What the producers read and what the lines show *)

Lemma cycle_count_record_of c m :
  is_producer c = true ->
  cycle_count (record_of c m)
  = if stamps c then Some (to_ull (tsc_now (env m))) else None.
Proof. destruct c; try discriminate; reflexivity. Qed.

Lemma after_producer_env c m :
  env (after_producer c m)
  = if stamps c then env_tsc (to_ull (tsc_now (env m))) (env m) else env m.
Proof.
  unfold after_producer, produced.
  destruct (stamps c), (is_startInterval c); reflexivity.
Qed.

Lemma after_producers_readings cs : forall m,
  wf m -> telemetry_active (statics m) <> 0 ->
  forallb is_producer cs = true ->
  trace (env (after_producers cs m))
  = trace (env m) ++ (ERdtscp <$> omap cycle_count (written cs m)) /\
  tsc_reads (env (after_producers cs m))
  = (tsc_reads (env m) + length (omap cycle_count (written cs m)))%nat /\
  clock_reads (env (after_producers cs m)) = clock_reads (env m).
Proof.
  induction cs as [|c cs IH]; intros m Hwf Hact Hp.
  - cbn. rewrite app_nil_r. auto with arith.
  - cbn in Hp. apply andb_true_iff in Hp as [Hc Hp].
    rewrite written_cons by assumption. cbn [after_producers].
    destruct (IH (after_producer c m)) as (Ht & Hn & Hk);
      [apply wf_after_producer; exact Hwf | | exact Hp |].
    { destruct (after_producer_statics c m) as (_ & _ & _ & ->). exact Hact. }
    rewrite Ht, Hn, Hk, after_producer_env. cbn [omap list_omap].
    rewrite cycle_count_record_of by exact Hc.
    destruct (stamps c); cbn.
    + rewrite <- app_assoc. split; [reflexivity|]. split; [lia | reflexivity].
    + auto.
Qed.

(** X13. A run of producers of an initialised recorder does to the
    outside exactly this: one reading of the cycle counter for every
    [takeTimeStamp], [startInterval] and [stopInterval], in call order,
    none for [annotateInterval]; each reading is the cycle count of the
    record the call wrote.  Nothing is printed, the clock is not read. *)
Theorem producers_only_read_the_cycle_counter cs m :
  wf m -> telemetry_active (statics m) <> 0 ->
  forallb is_producer cs = true ->
  exists rs m',
    run cs m = Some (rs, m') /\
    trace (env m')
    = trace (env m) ++ (ERdtscp <$> omap cycle_count (written cs m)) /\
    length (omap cycle_count (written cs m))
    = length (filter (fun c => stamps c = true) cs) /\
    tsc_reads (env m')
    = (tsc_reads (env m) + length (filter (fun c => stamps c = true) cs))%nat /\
    clock_reads (env m') = clock_reads (env m).
Proof.
  intros Hwf Hact Hp.
  destruct (run_producers cs m Hwf Hact Hp) as [rs Hrun].
  destruct (after_producers_readings cs m Hwf Hact Hp) as (Ht & Hn & Hk).
  assert (Hlen : forall cs m, wf m -> telemetry_active (statics m) <> 0 ->
            forallb is_producer cs = true ->
            length (omap cycle_count (written cs m))
            = length (filter (fun c => stamps c = true) cs)).
  { clear. induction cs as [|c cs IH]; intros m Hwf Hact Hp; [reflexivity|].
    cbn in Hp. apply andb_true_iff in Hp as [Hc Hp].
    rewrite written_cons by assumption. cbn [omap list_omap].
    rewrite cycle_count_record_of, filter_cons by exact Hc.
    assert (IH' := IH (after_producer c m) (wf_after_producer c m Hwf)).
    destruct (after_producer_statics c m) as (_ & _ & _ & Ha).
    rewrite Ha in IH'. specialize (IH' Hact Hp).
    destruct (stamps c); cbn.
    - rewrite decide_True by reflexivity. cbn. f_equal. exact IH'.
    - rewrite decide_False by discriminate. exact IH'. }
  exists rs, (after_producers cs m). split; [exact Hrun|].
  split; [exact Ht|]. split; [apply Hlen; assumption|].
  split; [rewrite Hn, Hlen by assumption; reflexivity | exact Hk].
Qed.

Lemma producers_only_read_the_cycle_counter_witness :
  wf drained_sample /\
  exists rs m',
    run [call_takeTimeStamp 7 "mark"; call_annotateInterval 7 0 "note";
         call_stopInterval 7 0 "A"] drained_sample = Some (rs, m') /\
    trace (env m') = trace (env drained_sample) ++ [ERdtscp 3017; ERdtscp 4017].
Proof.
  destruct drained_sample_ready as (Hwf & Hact & _).
  split; [exact Hwf|].
  destruct (producers_only_read_the_cycle_counter
              [call_takeTimeStamp 7 "mark"; call_annotateInterval 7 0 "note";
               call_stopInterval 7 0 "A"] drained_sample Hwf Hact eq_refl)
    as (rs & m' & Hrun & Htrace & _).
  exists rs, m'. split; [exact Hrun|]. rewrite Htrace. f_equal.
Defined.

Lemma to_int_to_uint i : - 2 ^ 31 <= i < 2 ^ 31 -> to_int (to_uint i) = i.
Proof.
  intros H. unfold to_int, to_uint. rewrite Zplus_mod_idemp_l.
  rewrite Z.mod_small; lia.
Qed.

(** X14. The identifier [stopInterval] and [annotateInterval] take as an
    [int] comes back as it was passed: stored as [unsigned int] and
    printed with [%d], the line the next drain pass prints for the call
    shows the argument, negative ones included. *)
Theorem interval_id_argument_prints_back outfile c t i d m :
  c = call_stopInterval t i d \/ c = call_annotateInterval t i d ->
  wf m -> telemetry_active (statics m) <> 0 ->
  lastSerializedIndex (statics m) = recordBufferIndex (statics m) ->
  - 2 ^ 31 <= i < 2 ^ 31 ->
  exists r m1 m2 printed,
    perform c m = Some (r, m1) /\
    serializeTelemetryBuffer outfile m1 = Some (tt, m2) /\
    trace (env m2) = trace (env m1) ++ printed /\
    line_pieces printed !! 6%nat = Some (Conv "%d" (arg_uint (to_uint i))) /\
    printed_Z "%d" (arg_uint (to_uint i)) = Some i.
Proof.
  intros Hc Hwf Hact Hdr Hi.
  assert (Hp : is_producer c = true) by (destruct Hc; subst c; reflexivity).
  destruct (producer_then_drain outfile c m Hwf Hact Hdr Hp)
    as (Hrun & Hdrain & Htrace).
  eexists _, _, _, _. split; [exact Hrun|]. split; [exact Hdrain|].
  split; [exact Htrace|]. split.
  - destruct Hc; subst c; reflexivity.
  - unfold printed_Z. cbn. rewrite to_int_to_uint by exact Hi. reflexivity.
Qed.

Lemma interval_id_argument_prints_back_witness :
  wf drained_sample /\
  exists r m1 m2 printed,
    perform (call_stopInterval 8 (-1) "A") drained_sample = Some (r, m1) /\
    serializeTelemetryBuffer 1%nat m1 = Some (tt, m2) /\
    trace (env m2) = trace (env m1) ++ printed /\
    printed_Z "%d" (arg_uint (to_uint (-1))) = Some (-1).
Proof.
  destruct drained_sample_ready as (Hwf & Hact & Hdr).
  split; [exact Hwf|].
  destruct (interval_id_argument_prints_back 1%nat
              (call_stopInterval 8 (-1) "A") 8 (-1) "A" drained_sample
              (or_introl eq_refl) Hwf Hact Hdr)
    as (r & m1 & m2 & printed & Hrun & Hdrain & Htrace & _ & Hz).
  - lia.
  - exists r, m1, m2, printed. auto.
Defined.

(** X15. The identifiers [startInterval] hands out from [2^31] on are
    printed negative: the line the next drain pass prints for the call
    passes the [unsigned int] to [%d], which shows it less [2^32]. *)
Theorem large_interval_ids_print_negative outfile t d m :
  wf m -> telemetry_active (statics m) <> 0 ->
  lastSerializedIndex (statics m) = recordBufferIndex (statics m) ->
  2 ^ 31 <= intervalIDCounter (statics m) < 2 ^ 32 ->
  exists m1 m2 printed,
    startInterval t d m = Some (intervalIDCounter (statics m), m1) /\
    serializeTelemetryBuffer outfile m1 = Some (tt, m2) /\
    trace (env m2) = trace (env m1) ++ printed /\
    line_pieces printed !! 6%nat
    = Some (Conv "%d" (arg_uint (intervalIDCounter (statics m)))) /\
    printed_Z "%d" (arg_uint (intervalIDCounter (statics m)))
    = Some (intervalIDCounter (statics m) - 2 ^ 32).
Proof.
  intros Hwf Hact Hdr Hid.
  destruct (producer_then_drain outfile (call_startInterval t d) m
              Hwf Hact Hdr eq_refl) as (_ & Hdrain & Htrace).
  eexists _, _, _. split; [apply startInterval_active; assumption|].
  split; [exact Hdrain|]. split; [exact Htrace|]. split; [reflexivity|].
  unfold printed_Z. cbn. f_equal. unfold to_int.
  replace (intervalIDCounter (statics m) + 2 ^ 31)
    with (intervalIDCounter (statics m) - 2 ^ 31 + 1 * 2 ^ 32) by lia.
  rewrite Z.mod_add, Z.mod_small; lia.
Qed.

Lemma large_interval_ids_print_negative_witness :
  wf last_id_sample /\
  exists m1 m2 printed,
    startInterval 7 "A" last_id_sample = Some (4294967295, m1) /\
    serializeTelemetryBuffer 1%nat m1 = Some (tt, m2) /\
    trace (env m2) = trace (env m1) ++ printed /\
    printed_Z "%d" (arg_uint 4294967295) = Some (-1).
Proof.
  assert (Hwf : wf last_id_sample).
  { apply (wf_statics_only drained_sample); try reflexivity.
    apply drained_sample_ready. }
  split; [exact Hwf|].
  destruct (large_interval_ids_print_negative 1%nat 7 "A" last_id_sample Hwf)
    as (m1 & m2 & printed & Hrun & Hdrain & Htrace & _ & Hz).
  - cbn. discriminate.
  - reflexivity.
  - cbn. lia.
  - exists m1, m2, printed. auto.
Defined.
